(** * Performance analysis and load-testing engine

    A shallow embedding of [src/utils/performance-testing.ts] (class
    [PerformanceTesting]) and the properties of its score calculator,
    recommendation generator, telemetry collector, network-condition
    controller and load orchestrator.

    Modelling conventions.
    - A JavaScript [number] that holds a time, a size ratio or a score is a
      rational ([Q]): arithmetic is exact, rounding of doubles is not
      modelled, and the non-finite values NaN and Infinity are not inputs.
      Counts that the code obtains from [Array.length] or uses as loop
      bounds are [nat].
    - An optional field ([x?: number]) is an [option]; [None] is
      [undefined].
    - [Record<string, number>] is a [gmap string nat].
    - An [async] method is a function on the browsing session's state whose
      promise is fulfilled with a value, is rejected with an error message,
      or never settles.
    - What the browser does (whether a navigation fails, which timing
      entries the page delivers and when) is an input of the model. *)

From Stdlib Require Import QArith Qminmax Permutation Lqa.
From stdpp Require Import base strings list gmap pretty.

Local Open Scope string_scope.
Local Open Scope list_scope.

(** ** JavaScript numbers *)

Module Js.

(** [a < b] on finite numbers. *)
Definition ltb (a b : Q) : bool := negb (Qle_bool b a).

(** Truthiness of an optional number: [undefined] and [0] are falsy. *)
Definition truthy (x : option Q) : bool :=
  match x with
  | Some q => negb (Qeq_bool q 0)
  | None => false
  end.

(** [x <= k] where [x] may be [undefined]: a comparison with [undefined]
    is [false]. *)
Definition le (x : option Q) (k : Q) : bool :=
  match x with
  | Some q => Qle_bool q k
  | None => false
  end.

(** [x > k] where [x] may be [undefined]. *)
Definition gt (x : option Q) (k : Q) : bool :=
  match x with
  | Some q => ltb k q
  | None => false
  end.

(** [x || 0] on an optional number. *)
Definition orZero (x : option Q) : Q :=
  if truthy x then default 0%Q x else 0%Q.

(** [array.length] as a number. *)
Definition len {A} (l : list A) : Q := inject_Z (Z.of_nat (length l)).

(** [array.reduce((sum, x) => sum + x, 0)]. *)
Definition sum (l : list Q) : Q := fold_left Qplus l 0%Q.

(** The result of an operation that can leave the finite numbers. *)
Inductive number := Fin (q : Q) | NaN | Infinity | NegInfinity.

(** [a / b]: a zero divisor gives [NaN] or an infinity, never an error. *)
Definition div (a b : Q) : number :=
  if Qeq_bool b 0 then
    if Qeq_bool a 0 then NaN
    else if Qle_bool 0 a then Infinity else NegInfinity
  else Fin (a / b).

(** [x * k] for a finite [k]. *)
Definition times (x : number) (k : Q) : number :=
  match x with
  | Fin q => Fin (q * k)
  | NaN => NaN
  | Infinity =>
      if Qeq_bool k 0 then NaN
      else if Qle_bool 0 k then Infinity else NegInfinity
  | NegInfinity =>
      if Qeq_bool k 0 then NaN
      else if Qle_bool 0 k then NegInfinity else Infinity
  end.

(** [x > k]. *)
Definition gtn (x : number) (k : Q) : bool :=
  match x with
  | Fin q => ltb k q
  | Infinity => true
  | NaN | NegInfinity => false
  end.

(** [Math.min(...l)]: [Infinity] for no argument. *)
Definition min (l : list Q) : number :=
  match l with
  | [] => Infinity
  | x :: rest => Fin (fold_left Qmin rest x)
  end.

(** [Math.max(...l)]: [-Infinity] for no argument. *)
Definition max (l : list Q) : number :=
  match l with
  | [] => NegInfinity
  | x :: rest => Fin (fold_left Qmax rest x)
  end.

Definition finite (x : number) : bool :=
  match x with Fin _ => true | _ => false end.

End Js.

(** ** Type definitions (lines 452-536 of the source) *)

Module WebVitals.
Record t := mk {
  firstContentfulPaint : option Q;
  largestContentfulPaint : option Q;
  domContentLoaded : option Q;
  loadComplete : option Q;
  firstByte : option Q
}.
(** The object literal [{}]. *)
Definition empty : t := mk None None None None None.
End WebVitals.

Module SlowestResource.
Record t := mk { name : string; duration : Q }.
End SlowestResource.

Module ResourceMetrics.
Record t := mk {
  totalResources : nat;
  totalSize : Z;
  slowestResource : SlowestResource.t;
  resourceTypes : gmap string nat
}.
End ResourceMetrics.

Module MemorySnapshot.
Record t := mk {
  usedJSHeapSize : Z;
  totalJSHeapSize : Z;
  jsHeapSizeLimit : Z
}.
End MemorySnapshot.

Module PerformanceMetrics.
Record t := mk {
  webVitals : WebVitals.t;
  resources : ResourceMetrics.t;
  memory : option MemorySnapshot.t
}.
End PerformanceMetrics.

Module PerformanceScores.
Record t := mk {
  overall : Q;
  firstContentfulPaint : Q;
  largestContentfulPaint : Q;
  loadTime : Q;
  resourceEfficiency : Q
}.

Definition set_overall (v : Q) (s : t) : t :=
  mk v (firstContentfulPaint s) (largestContentfulPaint s) (loadTime s)
     (resourceEfficiency s).
Definition set_firstContentfulPaint (v : Q) (s : t) : t :=
  mk (overall s) v (largestContentfulPaint s) (loadTime s)
     (resourceEfficiency s).
Definition set_largestContentfulPaint (v : Q) (s : t) : t :=
  mk (overall s) (firstContentfulPaint s) v (loadTime s)
     (resourceEfficiency s).
Definition set_loadTime (v : Q) (s : t) : t :=
  mk (overall s) (firstContentfulPaint s) (largestContentfulPaint s) v
     (resourceEfficiency s).
Definition set_resourceEfficiency (v : Q) (s : t) : t :=
  mk (overall s) (firstContentfulPaint s) (largestContentfulPaint s)
     (loadTime s) v.

(** [Object.values(scores)], in property order. *)
Definition values (s : t) : list Q :=
  [overall s; firstContentfulPaint s; largestContentfulPaint s; loadTime s;
   resourceEfficiency s].
End PerformanceScores.

Module NetworkConditions.
Record t := mk {
  downloadThroughput : Q;
  uploadThroughput : Q;
  latency : Q
}.
End NetworkConditions.

Module PerformanceAnalysis.
Record t := mk {
  url : string;
  timestamp : string;
  metrics : PerformanceMetrics.t;
  scores : PerformanceScores.t;
  recommendations : list string;
  networkConditions : option NetworkConditions.t
}.
End PerformanceAnalysis.

Module LoadTestOptions.
Record t := mk {
  concurrent : nat;
  iterations : nat;
  delayBetweenBatches : option Q
}.
End LoadTestOptions.

Module Summary.
Record t := mk {
  totalRequests : nat;
  successfulRequests : nat;
  failedRequests : nat;
  successRate : Js.number;
  averageResponseTime : Js.number;
  minResponseTime : Js.number;
  maxResponseTime : Js.number
}.
End Summary.

Module LoadTestResults.
Record t := mk {
  summary : Summary.t;
  errors : list string;
  recommendations : list string
}.
End LoadTestResults.

(** ** Score calculator (lines 216-272) *)

Definition calculatePerformanceScores (metrics : PerformanceMetrics.t)
  : PerformanceScores.t :=
  let wv := PerformanceMetrics.webVitals metrics in
  let res := PerformanceMetrics.resources metrics in
  let scores := PerformanceScores.mk 0 0 0 0 0 in
  (* FCP scoring *)
  let fcp := WebVitals.firstContentfulPaint wv in
  let scores :=
    if Js.truthy fcp then
      if Js.le fcp 1800 then PerformanceScores.set_firstContentfulPaint 100 scores
      else if Js.le fcp 3000 then PerformanceScores.set_firstContentfulPaint 75 scores
      else if Js.le fcp 4200 then PerformanceScores.set_firstContentfulPaint 50 scores
      else PerformanceScores.set_firstContentfulPaint 25 scores
    else scores in
  (* LCP scoring *)
  let lcp := WebVitals.largestContentfulPaint wv in
  let scores :=
    if Js.truthy lcp then
      if Js.le lcp 2500 then PerformanceScores.set_largestContentfulPaint 100 scores
      else if Js.le lcp 4000 then PerformanceScores.set_largestContentfulPaint 75 scores
      else PerformanceScores.set_largestContentfulPaint 25 scores
    else scores in
  (* Load time scoring *)
  let lc := WebVitals.loadComplete wv in
  let scores :=
    if Js.truthy lc then
      if Js.le lc 2000 then PerformanceScores.set_loadTime 100 scores
      else if Js.le lc 4000 then PerformanceScores.set_loadTime 75 scores
      else if Js.le lc 6000 then PerformanceScores.set_loadTime 50 scores
      else PerformanceScores.set_loadTime 25 scores
    else scores in
  (* Resource efficiency *)
  let n := ResourceMetrics.totalResources res in
  let scores :=
    if (n <=? 50)%nat then PerformanceScores.set_resourceEfficiency 100 scores
    else if (n <=? 100)%nat then PerformanceScores.set_resourceEfficiency 75 scores
    else if (n <=? 150)%nat then PerformanceScores.set_resourceEfficiency 50 scores
    else PerformanceScores.set_resourceEfficiency 25 scores in
  (* Calculate overall score *)
  let validScores :=
    List.filter (fun s => Js.ltb 0 s) (PerformanceScores.values scores) in
  PerformanceScores.set_overall
    (if (0 <? length validScores)%nat
     then (Js.sum validScores / Js.len validScores)%Q
     else 0%Q)
    scores.

(** ** Recommendation generator (lines 274-310) *)

Definition generateRecommendations (metrics : PerformanceMetrics.t)
  (scores : PerformanceScores.t) : list string :=
  let wv := PerformanceMetrics.webVitals metrics in
  let res := PerformanceMetrics.resources metrics in
  let recommendations : list string := [] in
  let recommendations :=
    if Js.ltb (PerformanceScores.firstContentfulPaint scores) 75 then
      recommendations ++
      ["Optimize First Contentful Paint by reducing render-blocking resources"]
    else recommendations in
  let recommendations :=
    if Js.ltb (PerformanceScores.largestContentfulPaint scores) 75 then
      recommendations ++
      ["Improve Largest Contentful Paint by optimizing main content loading"]
    else recommendations in
  let recommendations :=
    if (100 <? ResourceMetrics.totalResources res)%nat then
      recommendations ++
      ["Reduce number of resources (currently " +:+
       pretty (ResourceMetrics.totalResources res) +:+ ")"]
    else recommendations in
  let recommendations :=
    if (2 * 1024 * 1024 <? ResourceMetrics.totalSize res)%Z then
      recommendations ++
      ["Optimize resource sizes - total transfer size is high"]
    else recommendations in
  let recommendations :=
    if Js.gt (WebVitals.firstByte wv) 600 then
      recommendations ++ ["Improve server response time (TTFB)"]
    else recommendations in
  recommendations.

(** ** Telemetry collector: the in-page part (lines 16-102) *)

Module PerformanceEntry.
(** A navigation or paint entry. The navigation timestamps are read only
    when [entryType] is ["navigation"]. *)
Record t := mk {
  entryType : string;
  name : string;
  startTime : Q;
  domContentLoadedEventStart : Q;
  domContentLoadedEventEnd : Q;
  loadEventStart : Q;
  loadEventEnd : Q;
  requestStart : Q;
  responseStart : Q
}.
End PerformanceEntry.

Module ResourceTiming.
Record t := mk {
  name : string;
  initiatorType : string;
  requestStart : Q;
  responseEnd : Q;
  transferSize : option Z
}.
End ResourceTiming.

(** One iteration of [entries.forEach] (lines 23-39). *)
Definition recordEntry (vitals : WebVitals.t) (entry : PerformanceEntry.t)
  : WebVitals.t :=
  let vitals :=
    if String.eqb (PerformanceEntry.entryType entry) "navigation" then
      WebVitals.mk
        (WebVitals.firstContentfulPaint vitals)
        (WebVitals.largestContentfulPaint vitals)
        (Some (PerformanceEntry.domContentLoadedEventEnd entry
               - PerformanceEntry.domContentLoadedEventStart entry)%Q)
        (Some (PerformanceEntry.loadEventEnd entry
               - PerformanceEntry.loadEventStart entry)%Q)
        (Some (PerformanceEntry.responseStart entry
               - PerformanceEntry.requestStart entry)%Q)
    else vitals in
  let vitals :=
    if String.eqb (PerformanceEntry.name entry) "first-contentful-paint" then
      WebVitals.mk
        (Some (PerformanceEntry.startTime entry))
        (WebVitals.largestContentfulPaint vitals)
        (WebVitals.domContentLoaded vitals)
        (WebVitals.loadComplete vitals)
        (WebVitals.firstByte vitals)
    else vitals in
  let vitals :=
    if String.eqb (PerformanceEntry.name entry) "largest-contentful-paint" then
      WebVitals.mk
        (WebVitals.firstContentfulPaint vitals)
        (Some (PerformanceEntry.startTime entry))
        (WebVitals.domContentLoaded vitals)
        (WebVitals.loadComplete vitals)
        (WebVitals.firstByte vitals)
    else vitals in
  vitals.

(** One iteration of [resources.forEach] (lines 50-68). *)
Definition recordResource (resourceMetrics : ResourceMetrics.t)
  (resource : ResourceTiming.t) : ResourceMetrics.t :=
  let duration :=
    (ResourceTiming.responseEnd resource
     - ResourceTiming.requestStart resource)%Q in
  let slowest :=
    if Js.ltb
         (SlowestResource.duration
            (ResourceMetrics.slowestResource resourceMetrics))
         duration
    then SlowestResource.mk (ResourceTiming.name resource) duration
    else ResourceMetrics.slowestResource resourceMetrics in
  let type :=
    if String.eqb (ResourceTiming.initiatorType resource) ""
    then "other" else ResourceTiming.initiatorType resource in
  let types := ResourceMetrics.resourceTypes resourceMetrics in
  let types := <[type := (default 0%nat (types !! type) + 1)%nat]> types in
  let size :=
    match ResourceTiming.transferSize resource with
    | Some bytes =>
        if (bytes =? 0)%Z then ResourceMetrics.totalSize resourceMetrics
        else (ResourceMetrics.totalSize resourceMetrics + bytes)%Z
    | None => ResourceMetrics.totalSize resourceMetrics
    end in
  ResourceMetrics.mk (ResourceMetrics.totalResources resourceMetrics)
    size slowest types.

(** The body of the [PerformanceObserver] callback (lines 19-81). *)
Definition observerCallback (entries : list PerformanceEntry.t)
  (resources : list ResourceTiming.t) (memory : option MemorySnapshot.t)
  : PerformanceMetrics.t :=
  let vitals := fold_left recordEntry entries WebVitals.empty in
  let resourceMetrics :=
    fold_left recordResource resources
      (ResourceMetrics.mk (length resources) 0 (SlowestResource.mk "" 0) ∅) in
  PerformanceMetrics.mk vitals resourceMetrics memory.

(** The value the fallback timer resolves with (lines 90-99). *)
Definition fallbackMetrics : PerformanceMetrics.t :=
  PerformanceMetrics.mk WebVitals.empty
    (ResourceMetrics.mk 0 0 (SlowestResource.mk "" 0) ∅) None.

(** The delay of the fallback timer, in ms (line 100). *)
Definition fallbackTimeout : Q := 5000.

Module Notification.
(** One delivery of entries to the observer: its time in ms since the
    in-page promise was created, the delivered entries, and what
    [performance.getEntriesByType("resource")] holds at that time. *)
Record t := mk {
  at_ms : Q;
  entries : list PerformanceEntry.t;
  resources : list ResourceTiming.t
}.
End Notification.

(** What the page's event loop runs after the promise is created. *)
Inductive Task :=
  | ObserverTask (n : Notification.t)
  | TimerTask.

Module Page.
(** The in-page promise (settled with a time and a value, or pending) and
    whether the observer is still connected. *)
Record t := mk {
  settled : option (Q * PerformanceMetrics.t);
  connected : bool
}.
Definition initial : t := mk None true.
(** [resolve(v)]: only the first call settles the promise. *)
Definition resolve (now : Q) (v : PerformanceMetrics.t) (p : t) : t :=
  match settled p with
  | Some _ => p
  | None => mk (Some (now, v)) (connected p)
  end.
Definition disconnect (p : t) : t := mk (settled p) false.
End Page.

Definition runTask (memory : option MemorySnapshot.t) (p : Page.t)
  (task : Q * Task) : Page.t :=
  match task with
  | (now, ObserverTask n) =>
      if Page.connected p then
        Page.resolve now
          (observerCallback (Notification.entries n)
             (Notification.resources n) memory) p
      else p
  | (now, TimerTask) =>
      Page.resolve now fallbackMetrics (Page.disconnect p)
  end.

(** The task queue: the notifications in delivery order, with the timer
    task placed before the first notification that is not due before the
    timer. *)
Fixpoint eventQueue (ns : list Notification.t) : list (Q * Task) :=
  match ns with
  | [] => [(fallbackTimeout, TimerTask)]
  | n :: rest =>
      if Js.ltb (Notification.at_ms n) fallbackTimeout
      then (Notification.at_ms n, ObserverTask n) :: eventQueue rest
      else (fallbackTimeout, TimerTask)
           :: map (fun n => (Notification.at_ms n, ObserverTask n)) ns
  end.

(** The promise of lines 17-101 after the event loop has run all tasks:
    [None] means that it never settles. *)
Definition collectMetrics (ns : list Notification.t)
  (memory : option MemorySnapshot.t) : option (Q * PerformanceMetrics.t) :=
  Page.settled (fold_left (runTask memory) (eventQueue ns) Page.initial).

(** ** The browsing session and asynchronous methods *)

Module Emulation.
(** The argument of [Network.emulateNetworkConditions]. *)
Record t := mk {
  offline : bool;
  downloadThroughput : Q;
  uploadThroughput : Q;
  latency : Q
}.
(** The reset value of lines 136-141: no throttling. *)
Definition unconstrained : t := mk false (-1) (-1) 0.
End Emulation.

Module Session.
(** The state of the browsing session that the methods change: whether the
    Network domain is enabled, the network emulation in force, and the
    delays passed to [page.waitForTimeout] so far. *)
Record t := mk {
  networkEnabled : bool;
  emulation : Emulation.t;
  timeouts : list Q
}.
End Session.

Module PageLoad.
(** What the browser does during one call of [analyzePagePerformance]:
    whether [page.goto] and [page.waitForLoadState] reject (with which
    message), the observer notifications in the page, the memory counters
    ([performance.memory]) and the clock reading for the timestamp. *)
Record t := mk {
  goto : option string;
  waitForLoadState : option string;
  notifications : list Notification.t;
  memory : option MemorySnapshot.t;
  now : string
}.
End PageLoad.

(** The page load depends on the emulation in force. *)
Definition Browser : Type := Emulation.t -> PageLoad.t.

(** How an awaited promise ends. *)
Inductive Completion (A : Type) : Type :=
  | Returned (a : A)
  | Thrown (message : string)
  | Hangs.
Arguments Returned {A} a.
Arguments Thrown {A} message.
Arguments Hangs {A}.

Definition Async (A : Type) : Type := Session.t -> Completion A * Session.t.

Definition ret {A} (a : A) : Async A := fun s => (Returned a, s).

(** [await m] followed by the rest of the method: an exception or a
    promise that never settles skips the rest. *)
Definition bind {A B} (m : Async A) (k : A -> Async B) : Async B :=
  fun s =>
    match m s with
    | (Returned a, s') => k a s'
    | (Thrown e, s') => (Thrown e, s')
    | (Hangs, s') => (Hangs, s')
    end.

Declare Scope async_scope.
Delimit Scope async_scope with async.
Notation "x <- m ;; k" := (bind m (fun x => k))
  (at level 100, m at next level, right associativity) : async_scope.
Notation "m ;;; k" := (bind m (fun _ => k))
  (at level 100, right associativity) : async_scope.

(** A promise of the browser that rejects with [e] when [e] is given. *)
Definition settle (e : option string) : Async unit :=
  fun s =>
    match e with
    | Some message => (Thrown message, s)
    | None => (Returned tt, s)
    end.

Inductive CdpCommand :=
  | Network_enable
  | Network_emulateNetworkConditions (e : Emulation.t).

(** [page.context().newCDPSession(page)]: the client that [send] uses. *)
Definition newCDPSession : Async unit := ret tt.

(** [client.send(command)]. *)
Definition send (c : CdpCommand) : Async unit :=
  fun s =>
    (Returned tt,
     match c with
     | Network_enable =>
         Session.mk true (Session.emulation s) (Session.timeouts s)
     | Network_emulateNetworkConditions e =>
         Session.mk (Session.networkEnabled s) e (Session.timeouts s)
     end).

(** [page.waitForTimeout(ms)]. *)
Definition waitForTimeout (ms : Q) : Async unit :=
  fun s =>
    (Returned tt,
     Session.mk (Session.networkEnabled s) (Session.emulation s)
       (Session.timeouts s ++ [ms])).

(** [page.evaluate] of the in-page promise. *)
Definition evaluate (pl : PageLoad.t) : Async PerformanceMetrics.t :=
  fun s =>
    match collectMetrics (PageLoad.notifications pl) (PageLoad.memory pl) with
    | Some (_, metrics) => (Returned metrics, s)
    | None => (Hangs, s)
    end.

(** ** analyzePagePerformance (lines 9-114) *)

Definition analyzePagePerformance (browser : Browser) (url : string)
  : Async PerformanceAnalysis.t :=
  fun s =>
    let pl := browser (Session.emulation s) in
    (settle (PageLoad.goto pl) ;;;
     settle (PageLoad.waitForLoadState pl) ;;;
     metrics <- evaluate pl ;;
     let scores := calculatePerformanceScores metrics in
     ret (PerformanceAnalysis.mk url (PageLoad.now pl) metrics scores
            (generateRecommendations metrics scores) None))%async s.

(** ** testWithThrottling (lines 119-147) *)

Definition testWithThrottling (browser : Browser) (url : string)
  (conditions : NetworkConditions.t) : Async PerformanceAnalysis.t :=
  (newCDPSession ;;;
   send Network_enable ;;;
   send (Network_emulateNetworkConditions
           (Emulation.mk false
              (NetworkConditions.downloadThroughput conditions)
              (NetworkConditions.uploadThroughput conditions)
              (NetworkConditions.latency conditions))) ;;;
   analysis <- analyzePagePerformance browser url ;;
   (* Reset network conditions *)
   send (Network_emulateNetworkConditions (Emulation.mk false (-1) (-1) 0)) ;;;
   ret (PerformanceAnalysis.mk
          (PerformanceAnalysis.url analysis)
          (PerformanceAnalysis.timestamp analysis)
          (PerformanceAnalysis.metrics analysis)
          (PerformanceAnalysis.scores analysis)
          (PerformanceAnalysis.recommendations analysis)
          (Some conditions)))%async.

(** ** Load orchestrator (lines 152-185 and 370-449) *)

Definition loadComplete (r : PerformanceAnalysis.t) : option Q :=
  WebVitals.loadComplete
    (PerformanceMetrics.webVitals (PerformanceAnalysis.metrics r)).

Definition generateLoadTestRecommendations
  (results : list PerformanceAnalysis.t) (errors : list string)
  : list string :=
  let recommendations : list string := [] in
  let avgLoad :=
    Js.div
      (fold_left (fun sum r => (sum + Js.orZero (loadComplete r))%Q) results 0%Q)
      (Js.len results) in
  let recommendations :=
    if Js.gtn avgLoad 5000 then
      recommendations ++
      ["High average response time under load - consider server scaling"]
    else recommendations in
  let recommendations :=
    if Js.ltb (Js.len results * (1 # 10)) (Js.len errors) then
      recommendations ++
      ["High error rate - check server stability and capacity"]
    else recommendations in
  let recommendations :=
    if (length results <? 10)%nat then
      recommendations ++
      ["Consider running more iterations for better statistical significance"]
    else recommendations in
  recommendations.

(** [results] may hold [null] ([None]) entries; they are filtered out
    (line 374). *)
Definition analyzeLoadTestResults
  (results : list (option PerformanceAnalysis.t)) (errors : list string)
  : LoadTestResults.t :=
  let validResults := omap id results in
  if (length validResults =? 0)%nat then
    LoadTestResults.mk
      (Summary.mk (length results) 0 (length errors)
         (Js.Fin 0) (Js.Fin 0) (Js.Fin 0) (Js.Fin 0))
      errors
      ["All requests failed - check server capacity and configuration"]
  else
    let responseTimes :=
      map (fun r => Js.orZero (loadComplete r)) validResults in
    let avgResponseTime :=
      Js.div (Js.sum responseTimes) (Js.len responseTimes) in
    LoadTestResults.mk
      (Summary.mk (length results) (length validResults) (length errors)
         (Js.times (Js.div (Js.len validResults) (Js.len results)) 100)
         avgResponseTime
         (Js.min responseTimes)
         (Js.max responseTimes))
      errors
      (generateLoadTestRecommendations validResults errors).

Module Slots.
(** The environment of a load test: the browser behind slot [i] of batch
    [b], and the time at which that slot's promise settles. *)
Record t := mk {
  browser : nat -> nat -> Browser;
  settledAt : nat -> nat -> Q
}.
End Slots.

(** The order in which the slots of a batch settle: by settling time, and
    in launch order among slots that settle together. *)
Fixpoint insertBy (key : nat -> Q) (i : nat) (l : list nat) : list nat :=
  match l with
  | [] => [i]
  | j :: rest =>
      if Qle_bool (key i) (key j) then i :: l else j :: insertBy key i rest
  end.

Definition settleOrder (key : nat -> Q) (slots : list nat) : list nat :=
  fold_right (insertBy key) [] slots.

(** The message pushed by the [catch] handler (line 169). *)
Definition errorMessage (batch i : nat) (message : string) : string :=
  "Batch " +:+ pretty batch +:+ ", User " +:+ pretty i +:+ ": " +:+ message.

(** One slot (lines 168-171): the analysis with its [catch] handler. The
    promise is fulfilled with the analysis, or with [null] and the message
    that the handler pushes. *)
Definition slotPromise (w : Slots.t) (url : string) (batch i : nat)
  : Async (option PerformanceAnalysis.t * option string) :=
  fun s =>
    match analyzePagePerformance (Slots.browser w batch i) url s with
    | (Returned a, s') => (Returned (Some a, None), s')
    | (Thrown message, s') =>
        (Returned (None, Some (errorMessage batch i message)), s')
    | (Hangs, s') => (Hangs, s')
    end.

(** [Promise.all]: the values in the order of the promises. *)
Fixpoint all {A} (promises : list (Async A)) : Async (list A) :=
  match promises with
  | [] => ret []
  | p :: rest => (a <- p ;; others <- all rest ;; ret (a :: others))%async
  end.

Definition notNull {A} (r : option A) : bool :=
  match r with Some _ => true | None => false end.

(** One turn of the loop over the batches (lines 164-181), on the arrays
    [results] and [errors]. *)
Definition runBatch (w : Slots.t) (url : string)
  (options : LoadTestOptions.t) (batch : nat)
  (arrays : list (option PerformanceAnalysis.t) * list string)
  : Async (list (option PerformanceAnalysis.t) * list string) :=
  let slots := seq 0 (LoadTestOptions.concurrent options) in
  (settled <- all (map (slotPromise w url batch) slots) ;;
   let pushed :=
     omap (fun i => settled !! i ≫= snd)
       (settleOrder (Slots.settledAt w batch) slots) in
   let errors := snd arrays ++ pushed in
   let batchResults := map fst settled in
   let results := fst arrays ++ List.filter notNull batchResults in
   (if (batch <? LoadTestOptions.iterations options - 1)%nat
       && Js.truthy (LoadTestOptions.delayBetweenBatches options)
    then waitForTimeout (default 0%Q (LoadTestOptions.delayBetweenBatches options))
    else ret tt) ;;;
   ret (results, errors))%async.

Fixpoint forEachBatch {S} (body : nat -> S -> Async S) (batches : list nat)
  (acc : S) : Async S :=
  match batches with
  | [] => ret acc
  | b :: rest => (acc' <- body b acc ;; forEachBatch body rest acc')%async
  end.

Definition loadTest (w : Slots.t) (url : string) (options : LoadTestOptions.t)
  : Async LoadTestResults.t :=
  (arrays <- forEachBatch (runBatch w url options)
               (seq 0 (LoadTestOptions.iterations options)) ([], []) ;;
   ret (analyzeLoadTestResults (fst arrays) (snd arrays)))%async.

(** ** Mobile performance testing (lines 190-214 and 312-368) *)

Module Rect.
(** The part of [getBoundingClientRect()] that the code reads. *)
Record t := mk { width : Q; height : Q }.
End Rect.

Module TouchTargetAnalysis.
Record t := mk {
  totalTargets : nat;
  smallTargets : nat;
  smallTargetDetails : list string;
  compliance : Js.number
}.
End TouchTargetAnalysis.

Module ScrollPerformanceMetrics.
Record t := mk {
  duration : Z;
  smooth : bool;
  jankScore : Q
}.
End ScrollPerformanceMetrics.

Module MobileSpecific.
Record t := mk {
  viewportSize : nat * nat;
  touchTargetAnalysis : TouchTargetAnalysis.t;
  scrollPerformance : ScrollPerformanceMetrics.t
}.
End MobileSpecific.

Module MobilePerformanceResults.
(** [PerformanceAnalysis] extended with [mobileSpecific]. *)
Record t := mk {
  analysis : PerformanceAnalysis.t;
  mobileSpecific : MobileSpecific.t
}.
End MobilePerformanceResults.

(** [elements.forEach] of lines 320-325, from the element at [index] on:
    the details pushed for the elements that are too small. [toString] is
    the conversion of a number inside a template string. *)
Fixpoint smallTargetsFrom (toString : Q -> string) (index : nat)
  (elements : list Rect.t) : list string :=
  match elements with
  | [] => []
  | rect :: rest =>
      (if Js.ltb (Rect.width rect) 44 || Js.ltb (Rect.height rect) 44
       then ["Element " +:+ pretty index +:+ ": "
             +:+ toString (Rect.width rect) +:+ "x"
             +:+ toString (Rect.height rect)]
       else [])
      ++ smallTargetsFrom toString (S index) rest
  end.

(** The function evaluated in the page by [analyzeTouchTargets] (lines
    313-333), on the elements matched by the selector. *)
Definition touchTargets (toString : Q -> string) (elements : list Rect.t)
  : TouchTargetAnalysis.t :=
  let smallTargets := smallTargetsFrom toString 0 elements in
  let totalTargets := length elements in
  TouchTargetAnalysis.mk totalTargets (length smallTargets) smallTargets
    (Js.times
       (Js.div (Js.len elements - Js.len smallTargets) (Js.len elements))
       100).

Definition analyzeTouchTargets (toString : Q -> string)
  (elements : list Rect.t) : Async TouchTargetAnalysis.t :=
  ret (touchTargets toString elements).

(** The scroll loop of lines 346-357: the positions passed to
    [window.scrollTo], and whether the promise was resolved. The first
    call of [scroll] is direct; every further call needs an animation
    frame, and [frames] is the number of frames the browser delivers. *)
Fixpoint scroll (frames : nat) (maxScroll scrollTop : Z) {struct frames}
  : list Z * bool :=
  let scrollTop := (scrollTop + 100)%Z in
  if (maxScroll <=? scrollTop)%Z then ([scrollTop], true)
  else
    match frames with
    | O => ([scrollTop], false)
    | S frames' =>
        let later := scroll frames' maxScroll scrollTop in
        (scrollTop :: fst later, snd later)
    end.

Module ScrollRun.
(** What the page and the clock give to one call of
    [testScrollPerformance]: [document.body.scrollHeight],
    [window.innerHeight], the animation frames delivered, and the two
    readings of [Date.now()]. *)
Record t := mk {
  scrollHeight : Z;
  innerHeight : Z;
  frames : nat;
  startTime : Z;
  endTime : Z
}.
End ScrollRun.

Definition testScrollPerformance (run : ScrollRun.t)
  : Async ScrollPerformanceMetrics.t :=
  fun s =>
    let maxScroll := (ScrollRun.scrollHeight run - ScrollRun.innerHeight run)%Z in
    if snd (scroll (ScrollRun.frames run) maxScroll 0)
    then (Returned
            (ScrollPerformanceMetrics.mk
               (ScrollRun.endTime run - ScrollRun.startTime run) true 0), s)
    else (Hangs, s).

Module Device.
(** The session together with the page settings that
    [testMobilePerformance] changes. *)
Record t := mk {
  viewport : option (nat * nat);
  userAgent : option string;
  session : Session.t
}.
End Device.

Definition Mobile (A : Type) : Type := Device.t -> Completion A * Device.t.

Definition retM {A} (a : A) : Mobile A := fun d => (Returned a, d).

Definition bindM {A B} (m : Mobile A) (k : A -> Mobile B) : Mobile B :=
  fun d =>
    match m d with
    | (Returned a, d') => k a d'
    | (Thrown e, d') => (Thrown e, d')
    | (Hangs, d') => (Hangs, d')
    end.

(** A method that only touches the session. *)
Definition onSession {A} (m : Async A) : Mobile A :=
  fun d =>
    let r := m (Device.session d) in
    (fst r, Device.mk (Device.viewport d) (Device.userAgent d) (snd r)).

(** [page.setViewportSize(size)]. *)
Definition setViewportSize (size : nat * nat) : Mobile unit :=
  fun d => (Returned tt, Device.mk (Some size) (Device.userAgent d)
                           (Device.session d)).

(** [page.setUserAgent(userAgent)]. *)
Definition setUserAgent (userAgent : string) : Mobile unit :=
  fun d => (Returned tt, Device.mk (Device.viewport d) (Some userAgent)
                           (Device.session d)).

Declare Scope mobile_scope.
Delimit Scope mobile_scope with mobile.
Notation "x <- m ;; k" := (bindM m (fun x => k))
  (at level 100, m at next level, right associativity) : mobile_scope.
Notation "m ;;; k" := (bindM m (fun _ => k))
  (at level 100, right associativity) : mobile_scope.

Definition mobileUserAgent : string :=
  "Mozilla/5.0 (iPhone; CPU iPhone OS 14_0 like Mac OS X) AppleWebKit/605.1.15".

(** The conditions of lines 198-202. *)
Definition mobileConditions : NetworkConditions.t :=
  NetworkConditions.mk ((15 # 10) * 1024 * 1024 / 8) (750 * 1024 / 8) 150.

Definition testMobilePerformance (browser : Browser)
  (toString : Q -> string) (elements : list Rect.t) (run : ScrollRun.t)
  (url : string) : Mobile MobilePerformanceResults.t :=
  (setViewportSize (375, 667)%nat ;;;
   setUserAgent mobileUserAgent ;;;
   analysis <- onSession (testWithThrottling browser url mobileConditions) ;;
   touchTargetAnalysis <- onSession (analyzeTouchTargets toString elements) ;;
   scrollPerformance <- onSession (testScrollPerformance run) ;;
   retM (MobilePerformanceResults.mk analysis
           (MobileSpecific.mk (375, 667)%nat touchTargetAnalysis
              scrollPerformance)))%mobile.

(** * Definitions used to state the properties *)

(** The sub-scores as functions of the metric they read. *)
Definition fcpScore (t : option Q) : Q :=
  if Js.truthy t then
    if Js.le t 1800 then 100 else if Js.le t 3000 then 75
    else if Js.le t 4200 then 50 else 25
  else 0.

Definition lcpScore (t : option Q) : Q :=
  if Js.truthy t then
    if Js.le t 2500 then 100 else if Js.le t 4000 then 75 else 25
  else 0.

Definition loadScore (t : option Q) : Q :=
  if Js.truthy t then
    if Js.le t 2000 then 100 else if Js.le t 4000 then 75
    else if Js.le t 6000 then 50 else 25
  else 0.

Definition resourceScore (n : nat) : Q :=
  if (n <=? 50)%nat then 100 else if (n <=? 100)%nat then 75
  else if (n <=? 150)%nat then 50 else 25.

(** The scores object once the four sub-scores are set. *)
Definition withOverall (a b c d : Q) : PerformanceScores.t :=
  let validScores := List.filter (fun s => Js.ltb 0 s) [0%Q; a; b; c; d] in
  PerformanceScores.mk
    (if (0 <? length validScores)%nat
     then (Js.sum validScores / Js.len validScores)%Q else 0%Q)
    a b c d.

(** The mean of the non-zero scores in the spec's words: the scores that
    are not 0 are averaged, and the mean of no score is 0. *)
Definition meanOfNonZero (l : list Q) : Q :=
  match List.filter (fun s => negb (Qeq_bool s 0)) l with
  | [] => 0%Q
  | observed => (Js.sum observed / Js.len observed)%Q
  end.

Definition componentScores (s : PerformanceScores.t) : list Q :=
  [PerformanceScores.firstContentfulPaint s;
   PerformanceScores.largestContentfulPaint s;
   PerformanceScores.loadTime s;
   PerformanceScores.resourceEfficiency s].

(** The metrics that differ from [m] only in the web vitals. *)
Definition withVitals (m : PerformanceMetrics.t) (wv : WebVitals.t)
  : PerformanceMetrics.t :=
  PerformanceMetrics.mk wv (PerformanceMetrics.resources m)
    (PerformanceMetrics.memory m).

Definition withFCP (m : PerformanceMetrics.t) (t : option Q)
  : PerformanceMetrics.t :=
  let wv := PerformanceMetrics.webVitals m in
  withVitals m
    (WebVitals.mk t (WebVitals.largestContentfulPaint wv)
       (WebVitals.domContentLoaded wv) (WebVitals.loadComplete wv)
       (WebVitals.firstByte wv)).

Definition withLCP (m : PerformanceMetrics.t) (t : option Q)
  : PerformanceMetrics.t :=
  let wv := PerformanceMetrics.webVitals m in
  withVitals m
    (WebVitals.mk (WebVitals.firstContentfulPaint wv) t
       (WebVitals.domContentLoaded wv) (WebVitals.loadComplete wv)
       (WebVitals.firstByte wv)).

Definition withLoadComplete (m : PerformanceMetrics.t) (t : option Q)
  : PerformanceMetrics.t :=
  let wv := PerformanceMetrics.webVitals m in
  withVitals m
    (WebVitals.mk (WebVitals.firstContentfulPaint wv)
       (WebVitals.largestContentfulPaint wv)
       (WebVitals.domContentLoaded wv) t (WebVitals.firstByte wv)).

Definition withTotalResources (m : PerformanceMetrics.t) (n : nat)
  : PerformanceMetrics.t :=
  let r := PerformanceMetrics.resources m in
  PerformanceMetrics.mk (PerformanceMetrics.webVitals m)
    (ResourceMetrics.mk n (ResourceMetrics.totalSize r)
       (ResourceMetrics.slowestResource r) (ResourceMetrics.resourceTypes r))
    (PerformanceMetrics.memory m).

(** The threshold table of the spec, as data: the rows [(bound, score)] of
    one metric in order, and the score of the last row ("else"). A value
    gets the score of the first row whose bound it does not exceed. *)
Fixpoint band {A} (leb : A -> A -> bool) (rows : list (A * Q))
  (otherwise : Q) (v : A) : Q :=
  match rows with
  | [] => otherwise
  | (bound, score) :: rest =>
      if leb v bound then score else band leb rest otherwise v
  end.

Definition tableFCP : Q -> Q :=
  band Qle_bool [(1800, 100); (3000, 75); (4200, 50)]%Q 25.
Definition tableLCP : Q -> Q :=
  band Qle_bool [(2500, 100); (4000, 75)]%Q 25.
Definition tableLoadComplete : Q -> Q :=
  band Qle_bool [(2000, 100); (4000, 75); (6000, 50)]%Q 25.
Definition tableResourceCount : nat -> Q :=
  band Nat.leb [(50%nat, 100); (100%nat, 75); (150%nat, 50)]%Q 25.

Definition fcpAdvice : string :=
  "Optimize First Contentful Paint by reducing render-blocking resources".
Definition lcpAdvice : string :=
  "Improve Largest Contentful Paint by optimizing main content loading".

(** [analyzePagePerformance] as a function of the page load. *)
Definition analysisOf (pl : PageLoad.t) (url : string)
  : Completion PerformanceAnalysis.t :=
  match PageLoad.goto pl with
  | Some message => Thrown message
  | None =>
      match PageLoad.waitForLoadState pl with
      | Some message => Thrown message
      | None =>
          match collectMetrics (PageLoad.notifications pl)
                  (PageLoad.memory pl) with
          | Some (_, metrics) =>
              let scores := calculatePerformanceScores metrics in
              Returned
                (PerformanceAnalysis.mk url (PageLoad.now pl) metrics scores
                   (generateRecommendations metrics scores) None)
          | None => Hangs
          end
      end
  end.

(** What the promise of slot [i] of batch [batch] is fulfilled with, under
    the emulation [e]. *)
Definition slotValue (w : Slots.t) (url : string) (e : Emulation.t)
  (batch i : nat) : option PerformanceAnalysis.t * option string :=
  match analysisOf (Slots.browser w batch i e) url with
  | Returned a => (Some a, None)
  | Thrown message => (None, Some (errorMessage batch i message))
  | Hangs => (None, None)
  end.

(** What one batch appends to [results] and pushes on [errors]. *)
Definition batchResults (w : Slots.t) (url : string)
  (options : LoadTestOptions.t) (e : Emulation.t) (batch : nat)
  : list (option PerformanceAnalysis.t) :=
  List.filter notNull
    (map (fun i => fst (slotValue w url e batch i))
       (seq 0 (LoadTestOptions.concurrent options))).

Definition batchErrors (w : Slots.t) (url : string)
  (options : LoadTestOptions.t) (e : Emulation.t) (batch : nat)
  : list string :=
  omap (fun i => snd (slotValue w url e batch i))
    (settleOrder (Slots.settledAt w batch)
       (seq 0 (LoadTestOptions.concurrent options))).

(** The emulation that [testWithThrottling] applies (lines 126-131). *)
Definition throttled (conditions : NetworkConditions.t) : Emulation.t :=
  Emulation.mk false
    (NetworkConditions.downloadThroughput conditions)
    (NetworkConditions.uploadThroughput conditions)
    (NetworkConditions.latency conditions).

(** A site that loads on an unthrottled network and whose navigation times
    out as soon as latency is emulated. *)
Definition slowSite : Browser :=
  fun e =>
    if Qeq_bool (Emulation.latency e) 0
    then PageLoad.mk None None [] None "2024-01-01T00:00:00.000Z"
    else PageLoad.mk (Some "page.goto: Timeout 30000ms exceeded.") None []
           None "2024-01-01T00:00:00.000Z".

(** The "slow 3G" conditions of the repository's performance test. *)
Definition slowConditions : NetworkConditions.t :=
  NetworkConditions.mk (500 * 1024 / 8) (500 * 1024 / 8) 400.

Definition freshSession : Session.t :=
  Session.mk false Emulation.unconstrained [].

Definition allFailedAdvice : string :=
  "All requests failed - check server capacity and configuration".

(** The outcome of the analysis behind slot [i] of batch [batch]. *)
Definition slotOutcome (w : Slots.t) (url : string) (s : Session.t)
  (batch i : nat) : Completion PerformanceAnalysis.t :=
  fst (analyzePagePerformance (Slots.browser w batch i) url s).

(** A host that cannot be resolved: every navigation is rejected. *)
Definition unreachableHost : Slots.t :=
  Slots.mk
    (fun _ _ _ =>
       PageLoad.mk (Some "net::ERR_NAME_NOT_RESOLVED") None [] None
         "2024-01-01T00:00:00.000Z")
    (fun _ _ => 0%Q).

(** A navigation entry whose load event takes [ms] milliseconds. *)
Definition navigationEntry (ms : Q) : PerformanceEntry.t :=
  PerformanceEntry.mk "navigation" "https://playwright.dev" 0
    200 210 300 (300 + ms) 10 60.

(** A site whose slot 0 loads (load complete 1000 ms) and whose other
    slots are refused. *)
Definition overloadedHost : Slots.t :=
  Slots.mk
    (fun _ i _ =>
       if (i =? 0)%nat then
         PageLoad.mk None None
           [Notification.mk 40 [navigationEntry 1000] []] None
           "2024-01-01T00:00:00.000Z"
       else
         PageLoad.mk (Some "net::ERR_CONNECTION_REFUSED") None [] None
           "2024-01-01T00:00:00.000Z")
    (fun _ _ => 0%Q).

(** ** Definitions for the further properties *)

(** The sum of the counts of a per-type tally. *)
Definition tallyTotal (types : gmap string nat) : nat :=
  map_fold (fun _ count acc => (count + acc)%nat) 0%nat types.

(** [responseEnd - requestStart] of a resource entry (line 51). *)
Definition resourceDuration (r : ResourceTiming.t) : Q :=
  (ResourceTiming.responseEnd r - ResourceTiming.requestStart r)%Q.

(** The transfer size of a resource entry, an absent one counting as 0. *)
Definition transferred (r : ResourceTiming.t) : Z :=
  default 0%Z (ResourceTiming.transferSize r).

Definition isNavigation (entry : PerformanceEntry.t) : bool :=
  String.eqb (PerformanceEntry.entryType entry) "navigation".

Definition isFirstContentfulPaint (entry : PerformanceEntry.t) : bool :=
  String.eqb (PerformanceEntry.name entry) "first-contentful-paint".

Definition resourceAdvice (n : nat) : string :=
  "Reduce number of resources (currently " +:+ pretty n +:+ ")".
Definition sizeAdvice : string :=
  "Optimize resource sizes - total transfer size is high".
Definition ttfbAdvice : string := "Improve server response time (TTFB)".

(** The five recommendations in the order of their checks. *)
Definition allAdvice (n : nat) : list string :=
  [fcpAdvice; lcpAdvice; resourceAdvice n; sizeAdvice; ttfbAdvice].

Definition scalingAdvice : string :=
  "High average response time under load - consider server scaling".
Definition errorRateAdvice : string :=
  "High error rate - check server stability and capacity".
Definition significanceAdvice : string :=
  "Consider running more iterations for better statistical significance".

(** The load-complete times that the load test aggregates. *)
Definition responseTimesOf (results : list PerformanceAnalysis.t) : list Q :=
  map (fun r => Js.orZero (loadComplete r)) results.

(** The session after the pause, if any, that follows batch [batch]
    (lines 179-181). *)
Definition waitedAfter (options : LoadTestOptions.t) (batch : nat)
  (s : Session.t) : Session.t :=
  if (batch <? LoadTestOptions.iterations options - 1)%nat
     && Js.truthy (LoadTestOptions.delayBetweenBatches options)
  then Session.mk (Session.networkEnabled s) (Session.emulation s)
         (Session.timeouts s
          ++ [default 0%Q (LoadTestOptions.delayBetweenBatches options)])
  else s.

(** The pauses of a whole load test. *)
Definition pauses (options : LoadTestOptions.t) : list Q :=
  match LoadTestOptions.delayBetweenBatches options with
  | Some delay =>
      if Qeq_bool delay 0 then []
      else replicate (LoadTestOptions.iterations options - 1) delay
  | None => []
  end.

(** An analysis with the fallback metrics. *)
Definition fallbackAnalysis : PerformanceAnalysis.t :=
  PerformanceAnalysis.mk "https://playwright.dev" "2024-01-01T00:00:00.000Z"
    fallbackMetrics (calculatePerformanceScores fallbackMetrics)
    (generateRecommendations fallbackMetrics
       (calculatePerformanceScores fallbackMetrics))
    None.

(** The messages of the failing slots of a batch, in launch order. *)
Definition failuresInLaunchOrder (w : Slots.t) (url : string)
  (options : LoadTestOptions.t) (s : Session.t) (batch : nat) : list string :=
  omap
    (fun i =>
       match slotOutcome w url s batch i with
       | Thrown message => Some (errorMessage batch i message)
       | _ => None
       end)
    (seq 0 (LoadTestOptions.concurrent options)).

(** A touch target is too small when it is narrower or lower than 44. *)
Definition tooSmall (rect : Rect.t) : bool :=
  Js.ltb (Rect.width rect) 44 || Js.ltb (Rect.height rect) 44.

(** The number of calls of [scroll] that reach [maxScroll] in steps of
    100: at least one. *)
Definition stepsNeeded (maxScroll : Z) : nat :=
  Z.to_nat (Z.max 1 ((maxScroll + 99) / 100)).

(** The first [k] scroll positions: 100, 200, ... *)
Definition scrollPositions (k : nat) : list Z :=
  map (fun j => (100 * Z.of_nat j)%Z) (seq 1 k).

(** * Properties *)

(** Boolean comparisons of rationals as facts for [lra]. *)
Ltac qfacts :=
  repeat match goal with
  | H : Qle_bool _ _ = true |- _ => apply Qle_bool_iff in H
  | H : Qle_bool ?x ?y = false |- _ =>
      assert (y < x)%Q by
        (apply Qnot_le_lt; intros Hle; apply Qle_bool_iff in Hle;
         rewrite Hle in H; discriminate H);
      clear H
  end.

(** ** Score calculator *)

Lemma calculatePerformanceScores_eq (m : PerformanceMetrics.t) :
  calculatePerformanceScores m =
  withOverall
    (fcpScore (WebVitals.firstContentfulPaint (PerformanceMetrics.webVitals m)))
    (lcpScore (WebVitals.largestContentfulPaint (PerformanceMetrics.webVitals m)))
    (loadScore (WebVitals.loadComplete (PerformanceMetrics.webVitals m)))
    (resourceScore (ResourceMetrics.totalResources (PerformanceMetrics.resources m))).
Proof.
  destruct m as [[fcp lcp dcl lc fb] [n sz slow types] mem].
  unfold calculatePerformanceScores, fcpScore, lcpScore, loadScore,
    resourceScore; cbn [PerformanceMetrics.webVitals
    PerformanceMetrics.resources WebVitals.firstContentfulPaint
    WebVitals.largestContentfulPaint WebVitals.loadComplete
    ResourceMetrics.totalResources].
  destruct (Js.truthy fcp);
    [destruct (Js.le fcp 1800);
       [|destruct (Js.le fcp 3000); [|destruct (Js.le fcp 4200)]]|];
  (destruct (Js.truthy lcp);
    [destruct (Js.le lcp 2500); [|destruct (Js.le lcp 4000)]|]);
  (destruct (Js.truthy lc);
    [destruct (Js.le lc 2000);
       [|destruct (Js.le lc 4000); [|destruct (Js.le lc 6000)]]|]);
  (destruct (n <=? 50)%nat;
    [|destruct (n <=? 100)%nat; [|destruct (n <=? 150)%nat]]);
  reflexivity.
Qed.

Lemma fcpScore_values t :
  fcpScore t = 0%Q \/ fcpScore t = 25%Q \/ fcpScore t = 50%Q \/
  fcpScore t = 75%Q \/ fcpScore t = 100%Q.
Proof.
  unfold fcpScore.
  destruct (Js.truthy t), (Js.le t 1800), (Js.le t 3000), (Js.le t 4200);
    auto 6.
Qed.

Lemma lcpScore_values t :
  lcpScore t = 0%Q \/ lcpScore t = 25%Q \/ lcpScore t = 75%Q \/
  lcpScore t = 100%Q.
Proof.
  unfold lcpScore.
  destruct (Js.truthy t), (Js.le t 2500), (Js.le t 4000); auto 6.
Qed.

Lemma loadScore_values t :
  loadScore t = 0%Q \/ loadScore t = 25%Q \/ loadScore t = 50%Q \/
  loadScore t = 75%Q \/ loadScore t = 100%Q.
Proof.
  unfold loadScore.
  destruct (Js.truthy t), (Js.le t 2000), (Js.le t 4000), (Js.le t 6000);
    auto 6.
Qed.

Lemma resourceScore_values n :
  resourceScore n = 25%Q \/ resourceScore n = 50%Q \/
  resourceScore n = 75%Q \/ resourceScore n = 100%Q.
Proof.
  unfold resourceScore.
  destruct (n <=? 50)%nat, (n <=? 100)%nat, (n <=? 150)%nat; auto 6.
Qed.

(** A falsy metric, absent or zero, leaves its sub-score at 0. *)
Lemma truthy_zero (q : Q) : (q == 0)%Q -> Js.truthy (Some q) = false.
Proof.
  intros H. unfold Js.truthy.
  apply Qeq_bool_iff in H. now rewrite H.
Qed.

Lemma truthy_nonzero (q : Q) : ~ (q == 0)%Q -> Js.truthy (Some q) = true.
Proof.
  intros H. unfold Js.truthy.
  destruct (Qeq_bool q 0) eqn:E; [|reflexivity].
  apply Qeq_bool_iff in E. contradiction.
Qed.

Lemma withOverall_mean (a b c d : Q) :
  (a = 0 \/ a = 25 \/ a = 50 \/ a = 75 \/ a = 100)%Q ->
  (b = 0 \/ b = 25 \/ b = 75 \/ b = 100)%Q ->
  (c = 0 \/ c = 25 \/ c = 50 \/ c = 75 \/ c = 100)%Q ->
  (d = 25 \/ d = 50 \/ d = 75 \/ d = 100)%Q ->
  let s := withOverall a b c d in
  (PerformanceScores.overall s == meanOfNonZero (componentScores s))%Q /\
  (25 <= PerformanceScores.overall s)%Q /\
  (PerformanceScores.overall s <= 100)%Q.
Proof.
  intros Ha Hb Hc Hd.
  repeat match goal with H : _ \/ _ |- _ => destruct H as [H|H] end;
    subst; vm_compute; repeat split; intros; discriminate.
Qed.

(** C4, counterexample: for the metrics of a page on which nothing was
    observed (empty web vitals, zeroed resources) the overall score is 100,
    not 0. *)
Lemma overall_of_unobserved_page_is_100 :
  (PerformanceScores.overall (calculatePerformanceScores fallbackMetrics)
   == 100)%Q /\
  ~ (PerformanceScores.overall (calculatePerformanceScores fallbackMetrics)
     == 0)%Q.
Proof. split; vm_compute; [reflexivity | discriminate]. Qed.

(** C4, amended: the overall score is the arithmetic mean of exactly the
    non-zero component scores; a component whose metric is absent stays 0
    and is left out of the mean; the resource-efficiency score is never 0,
    so the overall score lies in [25,100], and it is the resource-efficiency
    score when no web vital was observed. *)
Theorem overall_is_mean_of_nonzero_scores (m : PerformanceMetrics.t) :
  let s := calculatePerformanceScores m in
  let wv := PerformanceMetrics.webVitals m in
  (PerformanceScores.overall s == meanOfNonZero (componentScores s))%Q /\
  (25 <= PerformanceScores.overall s)%Q /\
  (PerformanceScores.overall s <= 100)%Q /\
  (25 <= PerformanceScores.resourceEfficiency s)%Q /\
  match WebVitals.firstContentfulPaint wv with
  | None => PerformanceScores.firstContentfulPaint s = 0%Q
  | Some _ => True
  end /\
  match WebVitals.largestContentfulPaint wv with
  | None => PerformanceScores.largestContentfulPaint s = 0%Q
  | Some _ => True
  end /\
  match WebVitals.loadComplete wv with
  | None => PerformanceScores.loadTime s = 0%Q
  | Some _ => True
  end /\
  match WebVitals.firstContentfulPaint wv, WebVitals.largestContentfulPaint wv,
        WebVitals.loadComplete wv with
  | None, None, None =>
      (PerformanceScores.overall s == PerformanceScores.resourceEfficiency s)%Q
  | _, _, _ => True
  end.
Proof.
  intros s wv. subst s. rewrite calculatePerformanceScores_eq. fold wv.
  pose proof (withOverall_mean _ _ _ _
    (fcpScore_values (WebVitals.firstContentfulPaint wv))
    (lcpScore_values (WebVitals.largestContentfulPaint wv))
    (loadScore_values (WebVitals.loadComplete wv))
    (resourceScore_values
       (ResourceMetrics.totalResources (PerformanceMetrics.resources m))))
    as (Hmean & Hlo & Hhi).
  repeat split; try assumption.
  - cbn [withOverall PerformanceScores.resourceEfficiency].
    destruct (resourceScore_values
      (ResourceMetrics.totalResources (PerformanceMetrics.resources m)))
      as [H|[H|[H|H]]]; rewrite H; vm_compute; discriminate.
  - destruct (WebVitals.firstContentfulPaint wv); [exact I | reflexivity].
  - destruct (WebVitals.largestContentfulPaint wv); [exact I | reflexivity].
  - destruct (WebVitals.loadComplete wv); [exact I | reflexivity].
  - destruct (WebVitals.firstContentfulPaint wv),
      (WebVitals.largestContentfulPaint wv), (WebVitals.loadComplete wv);
      try exact I.
    destruct (resourceScore_values
      (ResourceMetrics.totalResources (PerformanceMetrics.resources m)))
      as [H|[H|[H|H]]]; rewrite H; vm_compute; reflexivity.
Qed.

(** C5, counterexample: an FCP time of 0 ms is smaller than one of
    5000 ms, yet its FCP score (0) is below the other's (25). *)
Lemma fcp_zero_scores_below_slow_fcp :
  (0 < 5000)%Q /\
  (PerformanceScores.firstContentfulPaint
     (calculatePerformanceScores (withFCP fallbackMetrics (Some 0%Q)))
   < PerformanceScores.firstContentfulPaint
       (calculatePerformanceScores (withFCP fallbackMetrics (Some 5000%Q))))%Q.
Proof. split; vm_compute; reflexivity. Qed.

(** C5, amended: for two metrics that differ only in the FCP time, the one
    with the smaller FCP time has an FCP score at least as high, provided
    the smaller time is not 0. *)
Theorem fcp_score_monotone (m : PerformanceMetrics.t) (a b : Q) :
  (a <= b)%Q -> ~ (a == 0)%Q ->
  (PerformanceScores.firstContentfulPaint
     (calculatePerformanceScores (withFCP m (Some b)))
   <= PerformanceScores.firstContentfulPaint
        (calculatePerformanceScores (withFCP m (Some a))))%Q.
Proof.
  intros Hab Ha. rewrite !calculatePerformanceScores_eq.
  cbn [withOverall PerformanceScores.firstContentfulPaint withFCP withVitals
       PerformanceMetrics.webVitals WebVitals.firstContentfulPaint].
  unfold fcpScore. rewrite (truthy_nonzero a Ha). unfold Js.le.
  destruct (Js.truthy (Some b));
    destruct (Qle_bool a 1800) eqn:A1, (Qle_bool a 3000) eqn:A2,
      (Qle_bool a 4200) eqn:A3, (Qle_bool b 1800) eqn:B1,
      (Qle_bool b 3000) eqn:B2, (Qle_bool b 4200) eqn:B3;
    qfacts; try lra.
Qed.

Lemma fcp_score_monotone_witness :
  (PerformanceScores.firstContentfulPaint
     (calculatePerformanceScores (withFCP fallbackMetrics (Some 5000%Q)))
   <= PerformanceScores.firstContentfulPaint
        (calculatePerformanceScores (withFCP fallbackMetrics (Some 1000%Q))))%Q.
Proof.
  apply (fcp_score_monotone fallbackMetrics 1000 5000).
  - vm_compute; discriminate.
  - vm_compute; discriminate.
Defined.

(** C6, counterexample: an FCP time of 0 ms does not exceed 1800 ms, but
    its score is 0 where the table has 100. *)
Lemma fcp_zero_is_not_scored_by_the_table :
  (0 <= 1800)%Q /\
  tableFCP 0 = 100%Q /\
  PerformanceScores.firstContentfulPaint
    (calculatePerformanceScores (withFCP fallbackMetrics (Some 0%Q))) = 0%Q.
Proof. repeat split. vm_compute; discriminate. Qed.

(** C6, amended: a timing value that is present and not 0 is scored by the
    threshold table (FCP: 1800/3000/4200, LCP: 2500/4000, load complete:
    2000/4000/6000, giving 100/75/50/25, LCP without the 50 band); every
    resource count is scored by its table (50/100/150); a count of 50
    scores 100 and a count of 51 scores 75. *)
Theorem scores_follow_threshold_table (m : PerformanceMetrics.t) (t : Q)
  (n : nat) :
  ~ (t == 0)%Q ->
  PerformanceScores.firstContentfulPaint
    (calculatePerformanceScores (withFCP m (Some t))) = tableFCP t /\
  PerformanceScores.largestContentfulPaint
    (calculatePerformanceScores (withLCP m (Some t))) = tableLCP t /\
  PerformanceScores.loadTime
    (calculatePerformanceScores (withLoadComplete m (Some t)))
    = tableLoadComplete t /\
  PerformanceScores.resourceEfficiency
    (calculatePerformanceScores (withTotalResources m n))
    = tableResourceCount n /\
  PerformanceScores.resourceEfficiency
    (calculatePerformanceScores (withTotalResources m 50)) = 100%Q /\
  PerformanceScores.resourceEfficiency
    (calculatePerformanceScores (withTotalResources m 51)) = 75%Q.
Proof.
  intros Ht. rewrite !calculatePerformanceScores_eq.
  cbn [withOverall withFCP withLCP withLoadComplete withTotalResources
       withVitals PerformanceMetrics.webVitals PerformanceMetrics.resources
       WebVitals.firstContentfulPaint WebVitals.largestContentfulPaint
       WebVitals.loadComplete ResourceMetrics.totalResources
       PerformanceScores.firstContentfulPaint
       PerformanceScores.largestContentfulPaint PerformanceScores.loadTime
       PerformanceScores.resourceEfficiency].
  unfold fcpScore, lcpScore, loadScore.
  rewrite (truthy_nonzero t Ht).
  repeat split.
Qed.

Lemma scores_follow_threshold_table_witness :
  PerformanceScores.firstContentfulPaint
    (calculatePerformanceScores (withFCP fallbackMetrics (Some 3000%Q)))
  = 75%Q.
Proof.
  pose proof (scores_follow_threshold_table fallbackMetrics 3000 0) as H.
  destruct H as [H _].
  - vm_compute; discriminate.
  - rewrite H. reflexivity.
Defined.

(** C9: a timing value of exactly 0 ms is treated as unobserved: the
    scores are those of the metrics without that value, so the component
    score is 0 and does not enter the overall mean. *)
Theorem zero_timing_is_scored_as_absent (m : PerformanceMetrics.t) (q : Q) :
  (q == 0)%Q ->
  (calculatePerformanceScores (withFCP m (Some q))
   = calculatePerformanceScores (withFCP m None) /\
   PerformanceScores.firstContentfulPaint
     (calculatePerformanceScores (withFCP m (Some q))) = 0%Q) /\
  (calculatePerformanceScores (withLCP m (Some q))
   = calculatePerformanceScores (withLCP m None) /\
   PerformanceScores.largestContentfulPaint
     (calculatePerformanceScores (withLCP m (Some q))) = 0%Q) /\
  (calculatePerformanceScores (withLoadComplete m (Some q))
   = calculatePerformanceScores (withLoadComplete m None) /\
   PerformanceScores.loadTime
     (calculatePerformanceScores (withLoadComplete m (Some q))) = 0%Q).
Proof.
  intros Hq. rewrite !calculatePerformanceScores_eq.
  cbn [withOverall withFCP withLCP withLoadComplete withVitals
       PerformanceMetrics.webVitals PerformanceMetrics.resources
       WebVitals.firstContentfulPaint WebVitals.largestContentfulPaint
       WebVitals.loadComplete
       PerformanceScores.firstContentfulPaint
       PerformanceScores.largestContentfulPaint PerformanceScores.loadTime].
  assert (F : fcpScore (Some q) = 0%Q)
    by (unfold fcpScore; now rewrite (truthy_zero q Hq)).
  assert (L : lcpScore (Some q) = 0%Q)
    by (unfold lcpScore; now rewrite (truthy_zero q Hq)).
  assert (D : loadScore (Some q) = 0%Q)
    by (unfold loadScore; now rewrite (truthy_zero q Hq)).
  rewrite F, L, D. repeat split.
Qed.

Lemma zero_timing_is_scored_as_absent_witness :
  PerformanceScores.loadTime
    (calculatePerformanceScores
       (withLoadComplete fallbackMetrics (Some (300 - 300)%Q))) = 0%Q.
Proof.
  destruct (zero_timing_is_scored_as_absent fallbackMetrics (300 - 300))
    as (_ & _ & _ & H).
  - reflexivity.
  - exact H.
Defined.

(** ** Recommendation generator *)

(** The two score gates decide alone whether the paint advice is given. *)
Lemma generateRecommendations_fcp (metrics : PerformanceMetrics.t)
  (scores : PerformanceScores.t) :
  Js.ltb (PerformanceScores.firstContentfulPaint scores) 75 = true ->
  In fcpAdvice (generateRecommendations metrics scores).
Proof.
  intros H. unfold generateRecommendations. rewrite H.
  repeat match goal with
  | |- context [if ?c then _ else _] => destruct c
  end;
  rewrite ?in_app_iff; simpl; tauto.
Qed.

Lemma generateRecommendations_lcp (metrics : PerformanceMetrics.t)
  (scores : PerformanceScores.t) :
  Js.ltb (PerformanceScores.largestContentfulPaint scores) 75 = true ->
  In lcpAdvice (generateRecommendations metrics scores).
Proof.
  intros H. unfold generateRecommendations. rewrite H.
  repeat match goal with
  | |- context [if ?c then _ else _] => destruct c
  end;
  rewrite ?in_app_iff; simpl; tauto.
Qed.

(** C10: when the FCP (respectively LCP) value is absent, the
    recommendations computed from the metrics and their scores contain the
    FCP (respectively LCP) advice; for the fallback metrics, on which
    nothing was measured, they are exactly these two. *)
Theorem absent_paint_metric_is_advised (m : PerformanceMetrics.t) :
  In fcpAdvice
    (generateRecommendations (withFCP m None)
       (calculatePerformanceScores (withFCP m None))) /\
  In lcpAdvice
    (generateRecommendations (withLCP m None)
       (calculatePerformanceScores (withLCP m None))) /\
  generateRecommendations fallbackMetrics
    (calculatePerformanceScores fallbackMetrics) = [fcpAdvice; lcpAdvice].
Proof.
  split; [|split].
  - apply generateRecommendations_fcp.
    rewrite calculatePerformanceScores_eq. reflexivity.
  - apply generateRecommendations_lcp.
    rewrite calculatePerformanceScores_eq. reflexivity.
  - reflexivity.
Qed.

(** ** Telemetry collector *)

(** A settled promise keeps its value whatever runs later. *)
Lemma settled_stays memory (queue : list (Q * Task)) (p : Page.t) x :
  Page.settled p = Some x ->
  Page.settled (fold_left (runTask memory) queue p) = Some x.
Proof.
  revert p. induction queue as [|[now task] queue IH]; intros p Hp.
  - exact Hp.
  - cbn [fold_left]. apply IH.
    destruct task as [n|]; cbn [runTask].
    + destruct (Page.connected p); [|exact Hp].
      unfold Page.resolve. now rewrite Hp.
    + unfold Page.resolve, Page.disconnect. cbn [Page.settled].
      now rewrite Hp.
Qed.

(** The in-page promise always settles, and not later than the timer. *)
Lemma collectMetrics_settles (ns : list Notification.t) memory :
  exists t v, collectMetrics ns memory = Some (t, v) /\
              (t <= fallbackTimeout)%Q.
Proof.
  unfold collectMetrics.
  destruct ns as [|n rest].
  - exists fallbackTimeout, fallbackMetrics. split; [reflexivity|].
    apply Qle_refl.
  - cbn [eventQueue].
    destruct (Js.ltb (Notification.at_ms n) fallbackTimeout) eqn:E.
    + eexists _, _. split.
      * cbn [fold_left]. apply settled_stays. reflexivity.
      * unfold Js.ltb in E. apply negb_true_iff in E.
        destruct (Qle_bool fallbackTimeout (Notification.at_ms n)) eqn:F;
          [discriminate|]. qfacts. lra.
    + eexists _, _. split.
      * cbn [fold_left]. apply settled_stays. reflexivity.
      * apply Qle_refl.
Qed.

(** The analysis reads the session and leaves it as it is. *)
Lemma analyzePagePerformance_eq (browser : Browser) url s :
  analyzePagePerformance browser url s =
  (analysisOf (browser (Session.emulation s)) url, s).
Proof.
  unfold analyzePagePerformance, analysisOf, bind, settle, evaluate, ret.
  destruct (PageLoad.goto _); [reflexivity|].
  destruct (PageLoad.waitForLoadState _); [reflexivity|].
  destruct (collectMetrics _ _) as [[t v]|]; reflexivity.
Qed.

Lemma analysisOf_settles (pl : PageLoad.t) url :
  analysisOf pl url <> Hangs.
Proof.
  unfold analysisOf.
  destruct (PageLoad.goto pl); [discriminate|].
  destruct (PageLoad.waitForLoadState pl); [discriminate|].
  destruct (collectMetrics_settles (PageLoad.notifications pl)
              (PageLoad.memory pl)) as (t & v & E & _).
  rewrite E. discriminate.
Qed.


(** ** Network condition controller *)

(** When the analysis returns, including through its 5 s fallback, the
    emulation is reset. *)
Lemma testWithThrottling_returns_reset (browser : Browser) url conditions s a :
  analysisOf (browser (throttled conditions)) url = Returned a ->
  exists a' s',
    testWithThrottling browser url conditions s = (Returned a', s') /\
    PerformanceAnalysis.networkConditions a' = Some conditions /\
    PerformanceAnalysis.metrics a' = PerformanceAnalysis.metrics a /\
    Session.emulation s' = Emulation.unconstrained.
Proof.
  intros H. unfold testWithThrottling, bind, newCDPSession, ret.
  cbn [send]. rewrite analyzePagePerformance_eq.
  cbn [Session.emulation]. fold (throttled conditions). rewrite H.
  cbn. eexists _, _. repeat split.
Qed.

(** When the analysis throws, the reset is skipped: the exception leaves
    the method with the throttled emulation in force. *)
Lemma testWithThrottling_throws_throttled (browser : Browser) url conditions
  s message :
  analysisOf (browser (throttled conditions)) url = Thrown message ->
  exists s',
    testWithThrottling browser url conditions s = (Thrown message, s') /\
    Session.emulation s' = throttled conditions.
Proof.
  intros H. unfold testWithThrottling, bind, newCDPSession, ret.
  cbn [send]. rewrite analyzePagePerformance_eq.
  cbn [Session.emulation]. fold (throttled conditions). rewrite H.
  eexists. split; reflexivity.
Qed.

(** C1, at a failing input: on a fresh, unthrottled session the analysis of
    [slowSite] returns; [testWithThrottling] with the slow conditions
    throws the navigation error and leaves the session throttled, not
    unconstrained; the next plain analysis on that session runs under the
    throttled conditions and throws as well. *)
Theorem testWithThrottling_throw_keeps_throttling :
  (exists a,
     fst (analyzePagePerformance slowSite "https://playwright.dev"
            freshSession) = Returned a) /\
  (let after :=
     snd (testWithThrottling slowSite "https://playwright.dev"
            slowConditions freshSession) in
   fst (testWithThrottling slowSite "https://playwright.dev" slowConditions
          freshSession) = Thrown "page.goto: Timeout 30000ms exceeded." /\
   Session.emulation after = throttled slowConditions /\
   Session.emulation after <> Emulation.unconstrained /\
   fst (analyzePagePerformance slowSite "https://playwright.dev" after)
     = Thrown "page.goto: Timeout 30000ms exceeded.").
Proof.
  split.
  - eexists. vm_compute. reflexivity.
  - cbv zeta. repeat split; try (vm_compute; reflexivity).
    vm_compute. discriminate.
Qed.

(** ** Load orchestrator *)

Lemma insertBy_Permutation key i l : Permutation (insertBy key i l) (i :: l).
Proof.
  induction l as [|j l IH]; cbn [insertBy]; [reflexivity|].
  destruct (Qle_bool (key i) (key j)); [reflexivity|].
  rewrite IH. apply perm_swap.
Qed.

Lemma settleOrder_Permutation key l : Permutation (settleOrder key l) l.
Proof.
  induction l as [|i l IH]; cbn [settleOrder fold_right]; [reflexivity|].
  rewrite insertBy_Permutation. constructor. exact IH.
Qed.

Section LoadTest.

Variable w : Slots.t.
Variable url : string.
Variable options : LoadTestOptions.t.

(** The emulation in force during the load test. *)
Variable e : Emulation.t.

Let c := LoadTestOptions.concurrent options.
Let n := LoadTestOptions.iterations options.

Lemma slotPromise_eq batch i s :
  Session.emulation s = e ->
  slotPromise w url batch i s = (Returned (slotValue w url e batch i), s).
Proof.
  intros He. unfold slotPromise, slotValue.
  rewrite analyzePagePerformance_eq, He.
  pose proof (analysisOf_settles (Slots.browser w batch i e) url) as Hs.
  destruct (analysisOf _ _); [reflexivity | reflexivity | contradiction].
Qed.

Lemma all_slots batch (slots : list nat) s :
  Session.emulation s = e ->
  all (map (slotPromise w url batch) slots) s
  = (Returned (map (slotValue w url e batch) slots), s).
Proof.
  intros He. induction slots as [|i slots IH]; [reflexivity|].
  cbn [map all]. unfold bind at 1. rewrite (slotPromise_eq _ _ _ He).
  unfold bind at 1. rewrite IH. reflexivity.
Qed.

Lemma pushed_eq batch (order : list nat) :
  Forall (fun i => i < c) order ->
  omap (fun i => map (slotValue w url e batch) (seq 0 c) !! i ≫= snd) order
  = omap (fun i => snd (slotValue w url e batch i)) order.
Proof.
  intros H. induction H as [|i order Hi _ IH]; [reflexivity|].
  csimpl. rewrite IH.
  rewrite list_lookup_fmap, lookup_seq_lt by exact Hi. reflexivity.
Qed.

Lemma settleOrder_bound key : Forall (fun i => i < c) (settleOrder key (seq 0 c)).
Proof.
  rewrite settleOrder_Permutation. apply Forall_forall.
  intros i Hi. apply elem_of_seq in Hi. lia.
Qed.

Lemma runBatch_eq batch results errors s :
  Session.emulation s = e ->
  exists s',
    runBatch w url options batch (results, errors) s
    = (Returned (results ++ batchResults w url options e batch,
               errors ++ batchErrors w url options e batch),
       s') /\
    Session.emulation s' = e.
Proof.
  intros He. unfold runBatch. fold c.
  unfold bind at 1. rewrite (all_slots _ _ _ He).
  rewrite pushed_eq by apply settleOrder_bound.
  rewrite map_map. cbn [fst snd]. 
  unfold bind.
  destruct (_ && _); cbn; eexists; (split; [reflexivity | exact He]).
Qed.

Lemma forEachBatch_eq (batches : list nat) results errors s :
  Session.emulation s = e ->
  exists s',
    forEachBatch (runBatch w url options) batches (results, errors) s
    = (Returned (results ++ flat_map (batchResults w url options e) batches,
                 errors ++ flat_map (batchErrors w url options e) batches), s') /\
    Session.emulation s' = e.
Proof.
  revert results errors s.
  induction batches as [|b batches IH]; intros results errors s He.
  - exists s. cbn. rewrite !app_nil_r. split; [reflexivity | exact He].
  - cbn [forEachBatch flat_map]. unfold bind at 1.
    destruct (runBatch_eq b results errors s He) as (s1 & E1 & He1).
    rewrite E1.
    destruct (IH (results ++ batchResults w url options e b)
                (errors ++ batchErrors w url options e b) s1 He1)
      as (s2 & E2 & He2).
    exists s2. rewrite E2, <- !app_assoc. split; [reflexivity | exact He2].
Qed.

(** The load test always returns: it is the aggregation of what the
    batches collected. *)
Lemma loadTest_eq s :
  Session.emulation s = e ->
  exists s',
    loadTest w url options s
    = (Returned (analyzeLoadTestResults
                   (flat_map (batchResults w url options e) (seq 0 n))
                   (flat_map (batchErrors w url options e) (seq 0 n))), s') /\
    Session.emulation s' = e.
Proof.
  intros He. unfold loadTest. fold n. unfold bind.
  destruct (forEachBatch_eq (seq 0 n) [] [] s He) as (s' & E & He').
  rewrite E. cbn [fst snd app ret]. exists s'. split; [reflexivity | exact He'].
Qed.

End LoadTest.

Lemma len_nonzero {A} (l : list A) :
  length l <> 0%nat -> Qeq_bool (Js.len l) 0 = false.
Proof.
  intros H. destruct (Qeq_bool (Js.len l) 0) eqn:E; [|reflexivity].
  apply Qeq_bool_iff in E. unfold Js.len, Qeq in E. cbn in E. lia.
Qed.

Lemma omap_id_length_le {A} (l : list (option A)) :
  (length (omap id l) <= length l)%nat.
Proof. induction l as [|[x|] l IH]; csimpl; lia. Qed.

Lemma omap_id_length {A} (l : list (option A)) :
  Forall (fun r => notNull r = true) l -> length (omap id l) = length l.
Proof.
  induction 1 as [|[x|] l Hx _ IH]; csimpl; [reflexivity | lia | discriminate].
Qed.

(** No division by zero: the four computed fields of the summary are
    finite numbers, for every content of the two arrays. *)
Lemma analyzeLoadTestResults_finite results errors :
  let summary := LoadTestResults.summary (analyzeLoadTestResults results errors) in
  Js.finite (Summary.successRate summary) = true /\
  Js.finite (Summary.averageResponseTime summary) = true /\
  Js.finite (Summary.minResponseTime summary) = true /\
  Js.finite (Summary.maxResponseTime summary) = true.
Proof.
  unfold analyzeLoadTestResults.
  pose proof (omap_id_length_le results) as Hle.
  destruct (omap id results) as [|r valid] eqn:Hvalid; [cbn; auto|].
  cbn [length Nat.eqb LoadTestResults.summary Summary.successRate
       Summary.averageResponseTime Summary.minResponseTime
       Summary.maxResponseTime].
  cbn [length] in Hle.
  unfold Js.div.
  rewrite (len_nonzero results) by lia.
  rewrite (len_nonzero (map _ (r :: valid))) by (cbn; lia).
  cbn. auto.
Qed.

Lemma analyzeLoadTestResults_counts results errors :
  let summary := LoadTestResults.summary (analyzeLoadTestResults results errors) in
  Summary.totalRequests summary = length results /\
  Summary.successfulRequests summary = length (omap id results) /\
  Summary.failedRequests summary = length errors /\
  LoadTestResults.errors (analyzeLoadTestResults results errors) = errors.
Proof.
  unfold analyzeLoadTestResults.
  destruct (length (omap id results) =? 0)%nat eqn:E; cbn; repeat split.
  apply Nat.eqb_eq in E. now rewrite E.
Qed.

Section LoadTestCounts.

Variable w : Slots.t.
Variable url : string.
Variable options : LoadTestOptions.t.
Variable e : Emulation.t.

Let c := LoadTestOptions.concurrent options.

Lemma slotValue_cases batch i :
  (exists a, analysisOf (Slots.browser w batch i e) url = Returned a /\
             slotValue w url e batch i = (Some a, None)) \/
  (exists message,
      analysisOf (Slots.browser w batch i e) url = Thrown message /\
      slotValue w url e batch i = (None, Some (errorMessage batch i message))).
Proof.
  unfold slotValue.
  pose proof (analysisOf_settles (Slots.browser w batch i e) url) as Hs.
  destruct (analysisOf _ _); [left | right | contradiction]; eauto.
Qed.

Lemma slots_partition batch (slots : list nat) :
  (length (List.filter notNull
             (map (fun i => fst (slotValue w url e batch i)) slots))
   + length (omap (fun i => snd (slotValue w url e batch i)) slots)
   = length slots)%nat.
Proof.
  induction slots as [|i slots IH]; [reflexivity|]. csimpl.
  destruct (slotValue_cases batch i) as [(a & _ & ->)|(m & _ & ->)];
    cbn; lia.
Qed.

(** Every slot of a batch gives a result or an error, never both. *)
Lemma batch_counts batch :
  (length (batchResults w url options e batch)
   + length (batchErrors w url options e batch) = c)%nat.
Proof.
  unfold batchResults, batchErrors.
  rewrite settleOrder_Permutation, slots_partition.
  apply length_seq.
Qed.

Lemma arrays_counts (batches : list nat) :
  (length (flat_map (batchResults w url options e) batches)
   + length (flat_map (batchErrors w url options e) batches)
   = c * length batches)%nat.
Proof.
  induction batches as [|b batches IH]; cbn [flat_map length]; [lia|].
  rewrite !length_app. pose proof (batch_counts b). lia.
Qed.

(** The array [results] never holds [null]. *)
Lemma results_notNull (batches : list nat) :
  Forall (fun r => notNull r = true)
    (flat_map (batchResults w url options e) batches).
Proof.
  apply Forall_forall. intros r Hr. apply list_elem_of_In in Hr.
  apply in_flat_map in Hr as (b & _ & Hr).
  unfold batchResults in Hr. apply filter_In in Hr. tauto.
Qed.

Lemma batchErrors_elem batch i message :
  (i < c)%nat ->
  analysisOf (Slots.browser w batch i e) url = Thrown message ->
  errorMessage batch i message ∈ batchErrors w url options e batch.
Proof.
  intros Hi H. unfold batchErrors. apply list_elem_of_omap.
  exists i. split.
  - rewrite settleOrder_Permutation. apply elem_of_seq. fold c. lia.
  - unfold slotValue. rewrite H. reflexivity.
Qed.

Lemma batchResults_all_failed batch :
  (forall i, (i < c)%nat ->
     exists message,
       analysisOf (Slots.browser w batch i e) url = Thrown message) ->
  batchResults w url options e batch = [].
Proof.
  intros H. unfold batchResults. fold c.
  assert (G : forall slots : list nat, Forall (fun i => (i < c)%nat) slots ->
    List.filter notNull
      (map (fun i => fst (slotValue w url e batch i)) slots) = []).
  { induction 1 as [|i slots Hi _ IH]; [reflexivity|].
    cbn [map List.filter]. destruct (H i Hi) as (m & Hm).
    unfold slotValue at 1. rewrite Hm. exact IH. }
  apply G. apply Forall_forall. intros i Hi. apply elem_of_seq in Hi. lia.
Qed.

End LoadTestCounts.

(** The load test returns for every environment; [totalRequests] is the
    number of successful slots, and the successful and the failed slots
    together are the [concurrent * iterations] slots that were launched. *)
Lemma loadTest_counts (w : Slots.t) url (options : LoadTestOptions.t) s :
  exists r s',
    loadTest w url options s = (Returned r, s') /\
    Summary.totalRequests (LoadTestResults.summary r)
    = Summary.successfulRequests (LoadTestResults.summary r) /\
    (Summary.successfulRequests (LoadTestResults.summary r)
     + Summary.failedRequests (LoadTestResults.summary r)
     = LoadTestOptions.concurrent options * LoadTestOptions.iterations options)%nat.
Proof.
  destruct (loadTest_eq w url options (Session.emulation s) s eq_refl)
    as (s' & E & _).
  eexists _, s'. split; [exact E|].
  destruct (analyzeLoadTestResults_counts
    (flat_map (batchResults w url options (Session.emulation s))
       (seq 0 (LoadTestOptions.iterations options)))
    (flat_map (batchErrors w url options (Session.emulation s))
       (seq 0 (LoadTestOptions.iterations options))))
    as (Ht & Hs & Hf & _).
  cbv zeta in Ht, Hs, Hf. rewrite Ht, Hs, Hf.
  rewrite omap_id_length by apply results_notNull.
  split; [reflexivity|].
  rewrite arrays_counts, length_seq. reflexivity.
Qed.

(** C2, at a failing input: with [concurrent = 1], [iterations = 1] and a
    slot that throws, the load test returns [totalRequests = 0] (and
    [failedRequests = 1]), not [1 * 1]. *)
Theorem loadTest_totalRequests_omits_failed_slots :
  exists r,
    fst (loadTest unreachableHost "https://playwright.dev"
           (LoadTestOptions.mk 1 1 None) freshSession) = Returned r /\
    Summary.totalRequests (LoadTestResults.summary r) = 0%nat /\
    Summary.failedRequests (LoadTestResults.summary r) = 1%nat /\
    Summary.totalRequests (LoadTestResults.summary r) <> (1 * 1)%nat.
Proof.
  eexists. split; [vm_compute; reflexivity|].
  repeat split. discriminate.
Qed.

(** C3, at a failing input: with [concurrent = 2], [iterations = 1], one
    slot that succeeds and one that throws, the load test returns a success
    rate of 100, not 100 * 1 / 2 = 50. *)
Theorem loadTest_successRate_ignores_failed_slots :
  exists r rate,
    fst (loadTest overloadedHost "https://playwright.dev"
           (LoadTestOptions.mk 2 1 None) freshSession) = Returned r /\
    Summary.successfulRequests (LoadTestResults.summary r) = 1%nat /\
    Summary.failedRequests (LoadTestResults.summary r) = 1%nat /\
    Summary.successRate (LoadTestResults.summary r) = Js.Fin rate /\
    (rate == 100)%Q /\
    ~ (rate == 100 * 1 / (2 * 1))%Q.
Proof.
  eexists _, _. split; [vm_compute; reflexivity|].
  repeat split. vm_compute. discriminate.
Qed.

(** The defect behind C2 and C3 in general: [results] holds only the
    successful slots, so the success rate is 100 as soon as one slot
    succeeds, whatever the number of failed slots. *)
Lemma loadTest_successRate_is_100 (w : Slots.t) url
  (options : LoadTestOptions.t) s :
  exists r s',
    loadTest w url options s = (Returned r, s') /\
    (Summary.successfulRequests (LoadTestResults.summary r) = 0%nat \/
     exists rate,
       Summary.successRate (LoadTestResults.summary r) = Js.Fin rate /\
       (rate == 100)%Q).
Proof.
  destruct (loadTest_eq w url options (Session.emulation s) s eq_refl)
    as (s' & E & _).
  eexists _, s'. split; [exact E|].
  set (results := flat_map _ _). set (errors := flat_map _ _).
  assert (Hlen : length (omap id results) = length results)
    by (apply omap_id_length, results_notNull).
  unfold analyzeLoadTestResults.
  destruct (length (omap id results) =? 0)%nat eqn:Hz; [left; reflexivity|].
  right. apply Nat.eqb_neq in Hz.
  cbn [LoadTestResults.summary Summary.successRate]. unfold Js.div.
  rewrite (len_nonzero results) by lia.
  eexists. split; [reflexivity|].
  unfold Js.len. rewrite Hlen.
  assert (Hnz : ~ (inject_Z (Z.of_nat (length results)) == 0)%Q).
  { unfold Qeq. cbn. lia. }
  field. exact Hnz.
Qed.

(** The part of C3 that the code computes as stated: with at least one
    successful result, the response-time fields are the mean, the minimum
    and the maximum of the successful results' load-complete times, an
    absent time counting as 0. *)
Lemma analyzeLoadTestResults_response_times results errors r valid :
  omap id results = r :: valid ->
  let times := map (fun a => Js.orZero (loadComplete a)) (r :: valid) in
  let summary := LoadTestResults.summary (analyzeLoadTestResults results errors) in
  Js.orZero None = 0%Q /\
  Summary.averageResponseTime summary = Js.Fin (Js.sum times / Js.len times) /\
  Summary.minResponseTime summary = Js.Fin (fold_left Qmin (tail times) (hd 0%Q times)) /\
  Summary.maxResponseTime summary = Js.Fin (fold_left Qmax (tail times) (hd 0%Q times)).
Proof.
  intros Hvalid. unfold analyzeLoadTestResults. rewrite Hvalid.
  cbn [length Nat.eqb LoadTestResults.summary Summary.averageResponseTime
       Summary.minResponseTime Summary.maxResponseTime].
  unfold Js.div. rewrite len_nonzero by (cbn; lia).
  repeat split.
Qed.

(** C7, counterexample: when the only slot throws, [failedRequests] is 1:
    not every numeric field of the summary is zero. *)
Lemma all_failed_summary_counts_failures :
  exists r,
    fst (loadTest unreachableHost "https://playwright.dev"
           (LoadTestOptions.mk 1 1 None) freshSession) = Returned r /\
    slotOutcome unreachableHost "https://playwright.dev" freshSession 0 0
    = Thrown "net::ERR_NAME_NOT_RESOLVED" /\
    Summary.failedRequests (LoadTestResults.summary r) = 1%nat /\
    Summary.failedRequests (LoadTestResults.summary r) <> 0%nat.
Proof.
  eexists. split; [vm_compute; reflexivity|].
  repeat split. discriminate.
Qed.

(** C7, amended: the load test returns a result for every pattern of slot
    failures; the message of every slot that throws, prefixed with its
    batch and slot index, is in [errors], and [failedRequests] is the
    number of these messages; the computed fields of the summary are finite
    numbers (no division by zero); and when every slot throws, the success
    rate, the number of successful requests and the average, minimum and
    maximum response times are 0, [failedRequests] is
    [concurrent * iterations], and the only recommendation is the
    all-requests-failed message. *)
Theorem loadTest_records_slot_failures (w : Slots.t) (url : string)
  (options : LoadTestOptions.t) (s : Session.t) :
  let c := LoadTestOptions.concurrent options in
  let n := LoadTestOptions.iterations options in
  exists r s',
    loadTest w url options s = (Returned r, s') /\
    (forall batch i message,
        (batch < n)%nat -> (i < c)%nat ->
        slotOutcome w url s batch i = Thrown message ->
        errorMessage batch i message ∈ LoadTestResults.errors r) /\
    Summary.failedRequests (LoadTestResults.summary r)
    = length (LoadTestResults.errors r) /\
    (Summary.successfulRequests (LoadTestResults.summary r)
     + length (LoadTestResults.errors r) = c * n)%nat /\
    (Js.finite (Summary.successRate (LoadTestResults.summary r)) = true /\
     Js.finite (Summary.averageResponseTime (LoadTestResults.summary r)) = true /\
     Js.finite (Summary.minResponseTime (LoadTestResults.summary r)) = true /\
     Js.finite (Summary.maxResponseTime (LoadTestResults.summary r)) = true) /\
    ((forall batch i, (batch < n)%nat -> (i < c)%nat ->
        exists message, slotOutcome w url s batch i = Thrown message) ->
     Summary.successRate (LoadTestResults.summary r) = Js.Fin 0 /\
     Summary.successfulRequests (LoadTestResults.summary r) = 0%nat /\
     Summary.averageResponseTime (LoadTestResults.summary r) = Js.Fin 0 /\
     Summary.minResponseTime (LoadTestResults.summary r) = Js.Fin 0 /\
     Summary.maxResponseTime (LoadTestResults.summary r) = Js.Fin 0 /\
     Summary.failedRequests (LoadTestResults.summary r) = (c * n)%nat /\
     LoadTestResults.recommendations r = [allFailedAdvice]).
Proof.
  intros c n. set (e := Session.emulation s).
  destruct (loadTest_eq w url options e s eq_refl) as (s' & E & _).
  eexists _, s'. split; [exact E|].
  set (results := flat_map (batchResults w url options e) _).
  set (errors := flat_map (batchErrors w url options e) _).
  destruct (analyzeLoadTestResults_counts results errors)
    as (Ht & Hs & Hf & He).
  cbv zeta in Ht, Hs, Hf.
  assert (Hcount : (length results + length errors = c * n)%nat).
  { unfold results, errors. rewrite arrays_counts, length_seq. reflexivity. }
  assert (Hvalid : length (omap id results) = length results)
    by (apply omap_id_length, results_notNull).
  split; [|split; [|split; [|split]]].
  - intros batch i message Hb Hi H. rewrite He.
    unfold slotOutcome in H. rewrite analyzePagePerformance_eq in H.
    cbn [fst] in H. apply list_elem_of_In, in_flat_map.
    exists batch. split; [apply in_seq; lia|].
    apply list_elem_of_In. now apply batchErrors_elem.
  - now rewrite Hf, He.
  - rewrite Hs, He, Hvalid. exact Hcount.
  - apply analyzeLoadTestResults_finite.
  - intros Hall.
    assert (Hnone : results = []).
    { unfold results. fold n.
      assert (G : forall batches : list nat,
        Forall (fun b => (b < n)%nat) batches ->
        flat_map (batchResults w url options e) batches = []).
      { induction 1 as [|b batches Hb _ IH]; [reflexivity|].
        cbn [flat_map]. rewrite IH, app_nil_r.
        apply batchResults_all_failed. intros i Hi.
        destruct (Hall b i Hb Hi) as (m & Hm). exists m.
        unfold slotOutcome in Hm. rewrite analyzePagePerformance_eq in Hm.
        exact Hm. }
      apply G, Forall_forall. intros b Hb. apply elem_of_seq in Hb. lia. }
    rewrite Hnone in Hcount |- *. cbn in Hcount |- *.
    repeat split. exact Hcount.
Qed.

Lemma loadTest_records_slot_failures_witness :
  exists r,
    fst (loadTest unreachableHost "https://playwright.dev"
           (LoadTestOptions.mk 2 2 None) freshSession) = Returned r /\
    Summary.failedRequests (LoadTestResults.summary r) = 4%nat /\
    LoadTestResults.recommendations r = [allFailedAdvice].
Proof.
  destruct (loadTest_records_slot_failures unreachableHost
              "https://playwright.dev" (LoadTestOptions.mk 2 2 None)
              freshSession) as (r & s' & E & _ & _ & _ & _ & Hall).
  exists r. rewrite E. split; [reflexivity|].
  destruct Hall as (_ & _ & _ & _ & _ & Hf & Hr).
  - intros batch i _ _. eexists. vm_compute. reflexivity.
  - split; assumption.
Defined.


(** * Further properties *)

(** ** Resource aggregation of the observer callback *)

Lemma tallyTotal_increment (types : gmap string nat) (type : string) :
  tallyTotal (<[type := (default 0%nat (types !! type) + 1)%nat]> types)
  = S (tallyTotal types).
Proof.
  unfold tallyTotal.
  destruct (types !! type) as [count|] eqn:E; cbn [from_option].
  - rewrite <- insert_delete_eq.
    rewrite map_fold_insert_L; [|intros; lia|apply lookup_delete_eq].
    rewrite (map_fold_delete_L _ _ type count types);
      [unfold id; lia|intros; lia|exact E].
  - rewrite map_fold_insert_L; [cbn beta; lia|intros; lia|exact E].
Qed.

Lemma recordResource_types_nonempty_key rm r :
  ResourceMetrics.resourceTypes rm !! "" = None ->
  ResourceMetrics.resourceTypes (recordResource rm r) !! "" = None.
Proof.
  intros H. unfold recordResource. cbn [ResourceMetrics.resourceTypes].
  destruct (String.eqb (ResourceTiming.initiatorType r) "") eqn:E.
  - rewrite lookup_insert_ne by discriminate. exact H.
  - apply String.eqb_neq in E. rewrite lookup_insert_ne by congruence. exact H.
Qed.

Lemma recordResource_size rm r :
  ResourceMetrics.totalSize (recordResource rm r)
  = (ResourceMetrics.totalSize rm + transferred r)%Z.
Proof.
  unfold recordResource, transferred. cbn [ResourceMetrics.totalSize].
  destruct (ResourceTiming.transferSize r) as [bytes|];
    cbn [from_option]; unfold id; [|lia].
  destruct (bytes =? 0)%Z eqn:E; [|reflexivity].
  apply Z.eqb_eq in E. lia.
Qed.

Lemma fold_recordResource_totals (rs : list ResourceTiming.t) rm :
  let rm' := fold_left recordResource rs rm in
  ResourceMetrics.totalResources rm' = ResourceMetrics.totalResources rm /\
  tallyTotal (ResourceMetrics.resourceTypes rm')
  = (tallyTotal (ResourceMetrics.resourceTypes rm) + length rs)%nat /\
  (ResourceMetrics.resourceTypes rm !! "" = None ->
   ResourceMetrics.resourceTypes rm' !! "" = None) /\
  ResourceMetrics.totalSize rm'
  = (ResourceMetrics.totalSize rm + foldr Z.add 0%Z (map transferred rs))%Z.
Proof.
  revert rm. induction rs as [|r rs IH]; intros rm; cbn [fold_left].
  - cbn. repeat split; try lia. auto.
  - destruct (IH (recordResource rm r)) as (Hn & Ht & Hk & Hs).
    cbv zeta. rewrite Hn, Ht, Hs, recordResource_size.
    repeat split.
    + unfold recordResource at 1. cbn [ResourceMetrics.resourceTypes].
      rewrite tallyTotal_increment. cbn [length]. lia.
    + intros H. apply Hk, recordResource_types_nonempty_key, H.
    + cbn [map foldr]. lia.
Qed.


Lemma fold_recordResource_slowest (rs : list ResourceTiming.t) rm :
  let s0 := ResourceMetrics.slowestResource rm in
  let s := ResourceMetrics.slowestResource (fold_left recordResource rs rm) in
  (SlowestResource.duration s0 <= SlowestResource.duration s)%Q /\
  (forall r, In r rs -> (resourceDuration r <= SlowestResource.duration s)%Q) /\
  (s = s0 \/
   exists r, In r rs /\
     s = SlowestResource.mk (ResourceTiming.name r) (resourceDuration r)).
Proof.
  revert rm. induction rs as [|r rs IH]; intros rm; cbn [fold_left].
  - cbv zeta. split; [apply Qle_refl|]. split; [intros r []|]. now left.
  - destruct (IH (recordResource rm r)) as (Hmono & Hall & Hex).
    cbv zeta in *.
    assert (Hstep :
      (SlowestResource.duration (ResourceMetrics.slowestResource rm)
       <= SlowestResource.duration
            (ResourceMetrics.slowestResource (recordResource rm r)))%Q /\
      (resourceDuration r
       <= SlowestResource.duration
            (ResourceMetrics.slowestResource (recordResource rm r)))%Q /\
      (ResourceMetrics.slowestResource (recordResource rm r)
       = ResourceMetrics.slowestResource rm \/
       ResourceMetrics.slowestResource (recordResource rm r)
       = SlowestResource.mk (ResourceTiming.name r) (resourceDuration r))).
    { unfold recordResource. cbn [ResourceMetrics.slowestResource].
      fold (resourceDuration r). unfold Js.ltb.
      destruct (Qle_bool (resourceDuration r)
                  (SlowestResource.duration
                     (ResourceMetrics.slowestResource rm))) eqn:E;
        cbn [negb SlowestResource.duration]; qfacts;
        repeat split; auto; lra. }
    destruct Hstep as (H1 & H2 & H3).
    split; [lra|]. split.
    + intros r' [<-|Hr']; [lra | now apply Hall].
    + destruct Hex as [Hex|(r' & Hr' & Hex)].
      * destruct H3 as [H3|H3]; [left; congruence|].
        right. exists r. split; [now left | congruence].
      * right. exists r'. split; [now right | exact Hex].
Qed.

(** X2: the slowest resource reported by the observer callback has a
    duration of at least 0 and at least that of every resource entry, and
    it is either the initial placeholder (empty name, duration 0) or the
    name and duration of one of the entries. *)
Theorem observerCallback_slowest_resource (entries : list PerformanceEntry.t)
  (rs : list ResourceTiming.t) (memory : option MemorySnapshot.t) :
  let s :=
    ResourceMetrics.slowestResource
      (PerformanceMetrics.resources (observerCallback entries rs memory)) in
  (0 <= SlowestResource.duration s)%Q /\
  (forall r, In r rs -> (resourceDuration r <= SlowestResource.duration s)%Q) /\
  (s = SlowestResource.mk "" 0 \/
   exists r, In r rs /\
     s = SlowestResource.mk (ResourceTiming.name r) (resourceDuration r)).
Proof.
  unfold observerCallback. cbn [PerformanceMetrics.resources].
  exact (fold_recordResource_slowest rs
    (ResourceMetrics.mk (length rs) 0 (SlowestResource.mk "" 0) ∅)).
Qed.

(** ** Web vitals of the observer callback *)

Lemma recordEntry_navigation wv entry :
  let wv' := recordEntry wv entry in
  WebVitals.domContentLoaded wv'
  = (if isNavigation entry
     then Some (PerformanceEntry.domContentLoadedEventEnd entry
                - PerformanceEntry.domContentLoadedEventStart entry)%Q
     else WebVitals.domContentLoaded wv) /\
  WebVitals.loadComplete wv'
  = (if isNavigation entry
     then Some (PerformanceEntry.loadEventEnd entry
                - PerformanceEntry.loadEventStart entry)%Q
     else WebVitals.loadComplete wv) /\
  WebVitals.firstByte wv'
  = (if isNavigation entry
     then Some (PerformanceEntry.responseStart entry
                - PerformanceEntry.requestStart entry)%Q
     else WebVitals.firstByte wv).
Proof.
  unfold recordEntry, isNavigation.
  destruct (String.eqb (PerformanceEntry.entryType entry) "navigation"),
    (String.eqb (PerformanceEntry.name entry) "first-contentful-paint"),
    (String.eqb (PerformanceEntry.name entry) "largest-contentful-paint");
    repeat split.
Qed.

Lemma recordEntry_fcp wv entry :
  WebVitals.firstContentfulPaint (recordEntry wv entry)
  = if isFirstContentfulPaint entry
    then Some (PerformanceEntry.startTime entry)
    else WebVitals.firstContentfulPaint wv.
Proof.
  unfold recordEntry, isFirstContentfulPaint.
  destruct (String.eqb (PerformanceEntry.entryType entry) "navigation"),
    (String.eqb (PerformanceEntry.name entry) "first-contentful-paint") eqn:E,
    (String.eqb (PerformanceEntry.name entry) "largest-contentful-paint") eqn:F;
    try reflexivity;
    apply String.eqb_eq in E; apply String.eqb_eq in F; congruence.
Qed.

Lemma fold_recordEntry_absent (entries : list PerformanceEntry.t) wv :
  let wv' := fold_left recordEntry entries wv in
  (WebVitals.domContentLoaded wv' = None <->
   WebVitals.domContentLoaded wv = None /\ existsb isNavigation entries = false) /\
  (WebVitals.loadComplete wv' = None <->
   WebVitals.loadComplete wv = None /\ existsb isNavigation entries = false) /\
  (WebVitals.firstByte wv' = None <->
   WebVitals.firstByte wv = None /\ existsb isNavigation entries = false) /\
  (WebVitals.firstContentfulPaint wv' = None <->
   WebVitals.firstContentfulPaint wv = None /\
   existsb isFirstContentfulPaint entries = false).
Proof.
  revert wv. induction entries as [|entry entries IH]; intros wv.
  - cbn. tauto.
  - cbn [fold_left existsb]. cbv zeta.
    destruct (IH (recordEntry wv entry)) as (Hd & Hl & Hb & Hf).
    cbv zeta in Hd, Hl, Hb, Hf. rewrite Hd, Hl, Hb, Hf.
    destruct (recordEntry_navigation wv entry) as (Ed & El & Eb).
    cbv zeta in Ed, El, Eb. rewrite Ed, El, Eb, recordEntry_fcp.
    destruct (isNavigation entry), (isFirstContentfulPaint entry);
      cbn [orb]; intuition discriminate.
Qed.

(** X3: in the web vitals built by the observer callback, the
    DOM-content-loaded, load-complete and first-byte values are absent
    exactly when no delivered entry has the entry type "navigation", and
    the first-contentful-paint value is absent exactly when no delivered
    entry is named "first-contentful-paint". *)
Theorem observerCallback_vitals_presence (entries : list PerformanceEntry.t)
  (rs : list ResourceTiming.t) (memory : option MemorySnapshot.t) :
  let wv := PerformanceMetrics.webVitals (observerCallback entries rs memory) in
  (WebVitals.domContentLoaded wv = None <->
   existsb isNavigation entries = false) /\
  (WebVitals.loadComplete wv = None <->
   existsb isNavigation entries = false) /\
  (WebVitals.firstByte wv = None <-> existsb isNavigation entries = false) /\
  (WebVitals.firstContentfulPaint wv = None <->
   existsb isFirstContentfulPaint entries = false).
Proof.
  unfold observerCallback. cbn [PerformanceMetrics.webVitals].
  destruct (fold_recordEntry_absent entries WebVitals.empty)
    as (Hd & Hl & Hb & Hf).
  cbv zeta in *. cbn [WebVitals.empty WebVitals.domContentLoaded
    WebVitals.loadComplete WebVitals.firstByte
    WebVitals.firstContentfulPaint] in *.
  tauto.
Qed.

(** X4: the last delivered navigation entry decides the load-complete
    value, and the last entry named "first-contentful-paint" decides the
    FCP value: an entry at the end of the list overwrites what earlier
    entries recorded. *)
Theorem observerCallback_last_entry_wins (entries : list PerformanceEntry.t)
  (entry : PerformanceEntry.t) (rs : list ResourceTiming.t)
  (memory : option MemorySnapshot.t) :
  let wv :=
    PerformanceMetrics.webVitals
      (observerCallback (entries ++ [entry]) rs memory) in
  (PerformanceEntry.entryType entry = "navigation" ->
   WebVitals.loadComplete wv
   = Some (PerformanceEntry.loadEventEnd entry
           - PerformanceEntry.loadEventStart entry)%Q) /\
  (PerformanceEntry.name entry = "first-contentful-paint" ->
   WebVitals.firstContentfulPaint wv
   = Some (PerformanceEntry.startTime entry)).
Proof.
  unfold observerCallback. cbn [PerformanceMetrics.webVitals].
  rewrite fold_left_app. cbn [fold_left]. split; intros H.
  - destruct (recordEntry_navigation
                (fold_left recordEntry entries WebVitals.empty) entry)
      as (_ & El & _).
    cbv zeta in El. rewrite El. unfold isNavigation. rewrite H. reflexivity.
  - rewrite recordEntry_fcp. unfold isFirstContentfulPaint. rewrite H.
    reflexivity.
Qed.

Lemma observerCallback_last_entry_wins_witness :
  WebVitals.loadComplete
    (PerformanceMetrics.webVitals
       (observerCallback ([navigationEntry 1000] ++ [navigationEntry 2500])
          [] None))
  = Some (300 + 2500 - 300)%Q.
Proof.
  destruct (observerCallback_last_entry_wins [navigationEntry 1000]
              (navigationEntry 2500) [] None) as [H _].
  rewrite H; reflexivity.
Defined.

(** ** The in-page promise *)

(** X5: only the first delivery to the observer matters. If it is due
    before the 5000 ms timer, the promise settles at its time with the
    metrics built from its entries, whether or not they hold a navigation
    entry, and every later delivery is ignored; otherwise the promise
    settles at 5000 ms with the fallback metrics. *)
Theorem first_delivery_decides (n : Notification.t)
  (rest : list Notification.t) (memory : option MemorySnapshot.t) :
  collectMetrics (n :: rest) memory
  = if Js.ltb (Notification.at_ms n) fallbackTimeout
    then Some (Notification.at_ms n,
               observerCallback (Notification.entries n)
                 (Notification.resources n) memory)
    else Some (fallbackTimeout, fallbackMetrics).
Proof.
  unfold collectMetrics. cbn [eventQueue].
  destruct (Js.ltb (Notification.at_ms n) fallbackTimeout);
    cbn [fold_left]; apply settled_stays; reflexivity.
Qed.

(** ** analyzePagePerformance *)


(** ** Recommendation generator: the whole list *)

Lemma generateRecommendations_eq (metrics : PerformanceMetrics.t)
  (scores : PerformanceScores.t) :
  generateRecommendations metrics scores =
  (if Js.ltb (PerformanceScores.firstContentfulPaint scores) 75
   then [fcpAdvice] else []) ++
  (if Js.ltb (PerformanceScores.largestContentfulPaint scores) 75
   then [lcpAdvice] else []) ++
  (if (100 <? ResourceMetrics.totalResources
                (PerformanceMetrics.resources metrics))%nat
   then [resourceAdvice (ResourceMetrics.totalResources
                           (PerformanceMetrics.resources metrics))]
   else []) ++
  (if (2 * 1024 * 1024 <? ResourceMetrics.totalSize
                            (PerformanceMetrics.resources metrics))%Z
   then [sizeAdvice] else []) ++
  (if Js.gt (WebVitals.firstByte (PerformanceMetrics.webVitals metrics)) 600
   then [ttfbAdvice] else []).
Proof.
  unfold generateRecommendations.
  destruct (Js.ltb (PerformanceScores.firstContentfulPaint scores) 75),
    (Js.ltb (PerformanceScores.largestContentfulPaint scores) 75),
    (100 <? _)%nat, (2 * 1024 * 1024 <? _)%Z, (Js.gt _ 600); reflexivity.
Qed.

Lemma allAdvice_NoDup (n : nat) : NoDup (allAdvice n).
Proof.
  unfold allAdvice. repeat (apply NoDup_cons; split);
    [ | | | | | apply NoDup_nil_2 ];
    rewrite ?elem_of_cons; intros H;
    repeat (destruct H as [H|H]; [discriminate H|]);
    apply elem_of_nil in H; exact H.
Qed.

(** X7: the recommendations are a sublist of the five fixed messages in
    the order of their checks: at most five, in that order and without
    repetition. *)
Theorem generateRecommendations_ordered (metrics : PerformanceMetrics.t)
  (scores : PerformanceScores.t) :
  let n := ResourceMetrics.totalResources
             (PerformanceMetrics.resources metrics) in
  generateRecommendations metrics scores `sublist_of` allAdvice n /\
  NoDup (generateRecommendations metrics scores) /\
  (length (generateRecommendations metrics scores) <= 5)%nat.
Proof.
  intros n.
  assert (Hsub : generateRecommendations metrics scores
                 `sublist_of` allAdvice n).
  { rewrite generateRecommendations_eq. fold n. unfold allAdvice.
    destruct (Js.ltb (PerformanceScores.firstContentfulPaint scores) 75),
      (Js.ltb (PerformanceScores.largestContentfulPaint scores) 75),
      (100 <? n)%nat, (2 * 1024 * 1024 <? _)%Z, (Js.gt _ 600);
      cbn [app];
      repeat first [ apply sublist_nil | apply sublist_skip
                   | apply sublist_cons ]. }
  split; [exact Hsub|]. split.
  - exact (sublist_NoDup _ _ (allAdvice_NoDup n) Hsub).
  - apply sublist_length in Hsub. exact Hsub.
Qed.

(** Decides a score gate once the comparisons of the value are known. *)
Ltac gate_cases t Hz :=
  match goal with
  | |- context [Js.ltb ?c 75] =>
      let b := eval vm_compute in (Js.ltb c 75) in
      change (Js.ltb c 75) with b
  end;
  split;
  [ intros G;
    first [ discriminate G
          | exists t; split; [reflexivity|]; split; [exact Hz | lra] ]
  | intros (t' & [= <-] & _ & G); first [ reflexivity | lra ] ].

Lemma fcp_gate (v : option Q) :
  Js.ltb (fcpScore v) 75 = false <->
  exists t, v = Some t /\ ~ (t == 0)%Q /\ (t <= 3000)%Q.
Proof.
  unfold fcpScore, Js.truthy, Js.le. destruct v as [t|].
  - destruct (Qeq_bool t 0) eqn:Z; cbn [negb].
    + apply Qeq_bool_iff in Z. split; [discriminate|].
      intros (t' & [= <-] & Hz & _). contradiction.
    + assert (Hz : ~ (t == 0)%Q)
        by (intros H; apply Qeq_bool_iff in H; congruence).
      destruct (Qle_bool t 1800) eqn:A, (Qle_bool t 3000) eqn:B,
        (Qle_bool t 4200) eqn:C; qfacts; gate_cases t Hz.
  - split; [discriminate|]. intros (t & [=] & _).
Qed.

Lemma lcp_gate (v : option Q) :
  Js.ltb (lcpScore v) 75 = false <->
  exists t, v = Some t /\ ~ (t == 0)%Q /\ (t <= 4000)%Q.
Proof.
  unfold lcpScore, Js.truthy, Js.le. destruct v as [t|].
  - destruct (Qeq_bool t 0) eqn:Z; cbn [negb].
    + apply Qeq_bool_iff in Z. split; [discriminate|].
      intros (t' & [= <-] & Hz & _). contradiction.
    + assert (Hz : ~ (t == 0)%Q)
        by (intros H; apply Qeq_bool_iff in H; congruence).
      destruct (Qle_bool t 2500) eqn:A, (Qle_bool t 4000) eqn:B; qfacts;
        gate_cases t Hz.
  - split; [discriminate|]. intros (t & [=] & _).
Qed.

Lemma ttfb_gate (v : option Q) :
  Js.gt v 600 = false <->
  match v with Some t => (t <= 600)%Q | None => True end.
Proof.
  unfold Js.gt, Js.ltb. destruct v as [t|]; [|tauto].
  destruct (Qle_bool t 600) eqn:E; cbn [negb]; qfacts;
    split; intros G; try reflexivity; try discriminate G; lra.
Qed.

(** X8: the recommendations computed from some metrics and their scores
    are empty exactly when FCP and LCP were both observed with a non-zero
    value of at most 3000 ms and 4000 ms, there are at most 100 resources
    and at most 2 MiB transferred, and the time to first byte is absent or
    at most 600 ms. *)
Theorem no_recommendation_iff (m : PerformanceMetrics.t) :
  let wv := PerformanceMetrics.webVitals m in
  let res := PerformanceMetrics.resources m in
  generateRecommendations m (calculatePerformanceScores m) = [] <->
  (exists t, WebVitals.firstContentfulPaint wv = Some t /\
             ~ (t == 0)%Q /\ (t <= 3000)%Q) /\
  (exists t, WebVitals.largestContentfulPaint wv = Some t /\
             ~ (t == 0)%Q /\ (t <= 4000)%Q) /\
  (ResourceMetrics.totalResources res <= 100)%nat /\
  (ResourceMetrics.totalSize res <= 2097152)%Z /\
  match WebVitals.firstByte wv with
  | Some t => (t <= 600)%Q
  | None => True
  end.
Proof.
  intros wv res.
  rewrite generateRecommendations_eq, calculatePerformanceScores_eq.
  fold wv res.
  cbn [withOverall PerformanceScores.firstContentfulPaint
       PerformanceScores.largestContentfulPaint].
  rewrite <- fcp_gate, <- lcp_gate, <- ttfb_gate.
  destruct (Js.ltb (fcpScore _) 75), (Js.ltb (lcpScore _) 75),
    (Nat.ltb_spec 100 (ResourceMetrics.totalResources res)),
    (Z.ltb_spec (2 * 1024 * 1024) (ResourceMetrics.totalSize res)),
    (Js.gt _ 600);
    cbn [app];
    (split; [intros G; first [discriminate G | repeat split; lia]
            | intros (G1 & G2 & G3 & G4 & G5);
              first [reflexivity | congruence | lia]]).
Qed.

(** ** Aggregation of load-test results *)

Lemma generateLoadTestRecommendations_eq
  (results : list PerformanceAnalysis.t) (errors : list string) :
  generateLoadTestRecommendations results errors =
  (if Js.gtn (Js.div (Js.sum (responseTimesOf results)) (Js.len results)) 5000
   then [scalingAdvice] else []) ++
  (if Js.ltb (Js.len results * (1 # 10)) (Js.len errors)
   then [errorRateAdvice] else []) ++
  (if (length results <? 10)%nat then [significanceAdvice] else []).
Proof.
  unfold generateLoadTestRecommendations, responseTimesOf, Js.sum.
  replace (fold_left (fun sum r => (sum + Js.orZero (loadComplete r))%Q)
             results 0%Q)
    with (fold_left Qplus (map (fun r => Js.orZero (loadComplete r)) results)
            0%Q).
  - destruct (Js.gtn _ 5000), (Js.ltb _ _), (length results <? 10)%nat;
      reflexivity.
  - generalize 0%Q. induction results as [|r results IH]; intros acc;
      [reflexivity|]. cbn [map fold_left]. apply IH.
Qed.

Lemma error_rate_gate {A B} (results : list A) (errors : list B) :
  Js.ltb (Js.len results * (1 # 10)) (Js.len errors) = true <->
  (length results < 10 * length errors)%nat.
Proof.
  unfold Js.ltb, Js.len. rewrite negb_true_iff.
  destruct (Qle_bool _ _) eqn:E.
  - apply Qle_bool_iff in E. unfold Qle in E. cbn in E.
    split; [discriminate|]. lia.
  - split; [intros _|reflexivity].
    destruct (Nat.lt_ge_cases (length results) (10 * length errors))
      as [H|H]; [exact H|].
    assert (F : Qle_bool (inject_Z (Z.of_nat (length errors)))
                  (inject_Z (Z.of_nat (length results)) * (1 # 10)) = true).
    { apply Qle_bool_iff. unfold Qle. cbn. lia. }
    congruence.
Qed.

Lemma in_gated3 (a b c : bool) (x y z : string) :
  x <> y -> x <> z -> y <> z ->
  let l := (if a then [x] else []) ++ (if b then [y] else [])
           ++ (if c then [z] else []) in
  (In x l <-> a = true) /\ (In y l <-> b = true) /\ (In z l <-> c = true).
Proof.
  intros Hxy Hxz Hyz. destruct a, b, c; cbn; intuition congruence.
Qed.

(** X9: the load-test recommendations are decided by three independent
    gates: the significance advice is given exactly when there are fewer
    than 10 successful results; the error-rate advice exactly when the
    number of results is less than ten times the number of errors; the
    scaling advice exactly when there is at least one result and the mean
    load-complete time (absent as 0) exceeds 5000 ms. *)
Theorem generateLoadTestRecommendations_gates
  (results : list PerformanceAnalysis.t) (errors : list string) :
  let recommendations := generateLoadTestRecommendations results errors in
  (In significanceAdvice recommendations <-> (length results < 10)%nat) /\
  (In errorRateAdvice recommendations <->
   (length results < 10 * length errors)%nat) /\
  (In scalingAdvice recommendations <->
   results <> [] /\
   (5000 < Js.sum (responseTimesOf results) / Js.len results)%Q).
Proof.
  cbv zeta. rewrite generateLoadTestRecommendations_eq.
  pose proof (error_rate_gate results errors) as Herr.
  assert (Hscale :
    Js.gtn (Js.div (Js.sum (responseTimesOf results)) (Js.len results)) 5000
    = true <->
    results <> [] /\
    (5000 < Js.sum (responseTimesOf results) / Js.len results)%Q).
  { unfold Js.div. destruct results as [|r results].
    - cbn. split; [discriminate|]. intros [G _]. now contradiction G.
    - rewrite len_nonzero by (cbn; lia). cbn [Js.gtn]. unfold Js.ltb.
      rewrite negb_true_iff.
      destruct (Qle_bool _ 5000) eqn:E; qfacts;
        (split; [intros G; first [discriminate G | split; [discriminate | lra]]
                | intros [_ G]; first [reflexivity | lra]]). }
  destruct (in_gated3
    (Js.gtn (Js.div (Js.sum (responseTimesOf results)) (Js.len results)) 5000)
    (Js.ltb (Js.len results * (1 # 10)) (Js.len errors))
    (length results <? 10)%nat
    scalingAdvice errorRateAdvice significanceAdvice)
    as (H1 & H2 & H3); try discriminate.
  cbv zeta in H1, H2, H3.
  rewrite H1, H2, H3, Herr, Hscale, Nat.ltb_lt. tauto.
Qed.

Lemma len_cons {A} (x : A) (l : list A) :
  (Js.len (x :: l) == Js.len l + 1)%Q.
Proof.
  unfold Js.len. cbn [length]. rewrite Nat2Z.inj_succ, <- Z.add_1_r.
  rewrite inject_Z_plus. reflexivity.
Qed.

Lemma len_nonneg {A} (l : list A) : (0 <= Js.len l)%Q.
Proof. unfold Js.len, Qle. cbn. lia. Qed.

Lemma fold_min_spec (l : list Q) (x : Q) :
  let lo := fold_left Qmin l x in
  (lo <= x)%Q /\ (forall t, In t l -> (lo <= t)%Q) /\ In lo (x :: l).
Proof.
  revert x. induction l as [|y l IH]; intros x; cbn [fold_left].
  - cbv zeta. split; [apply Qle_refl|]. split; [intros t []|now left].
  - destruct (IH (Qmin x y)) as (H1 & H2 & H3). cbv zeta in *.
    pose proof (Q.le_min_l x y). pose proof (Q.le_min_r x y).
    split; [lra|]. split.
    + intros t [<-|Ht]; [lra | now apply H2].
    + destruct H3 as [H3|H3]; [|right; now right].
      rewrite <- H3. unfold Qmin, GenericMinMax.gmin.
      destruct (x ?= y)%Q; [left | left | right; left]; reflexivity.
Qed.

Lemma fold_max_spec (l : list Q) (x : Q) :
  let hi := fold_left Qmax l x in
  (x <= hi)%Q /\ (forall t, In t l -> (t <= hi)%Q) /\ In hi (x :: l).
Proof.
  revert x. induction l as [|y l IH]; intros x; cbn [fold_left].
  - cbv zeta. split; [apply Qle_refl|]. split; [intros t []|now left].
  - destruct (IH (Qmax x y)) as (H1 & H2 & H3). cbv zeta in *.
    pose proof (Q.le_max_l x y). pose proof (Q.le_max_r x y).
    split; [lra|]. split.
    + intros t [<-|Ht]; [lra | now apply H2].
    + destruct H3 as [H3|H3]; [|right; now right].
      rewrite <- H3. unfold Qmax, GenericMinMax.gmax.
      destruct (x ?= y)%Q; [left | right; left | left]; reflexivity.
Qed.

Lemma sum_bounds (l : list Q) (lo hi : Q) :
  (forall t, In t l -> (lo <= t)%Q /\ (t <= hi)%Q) ->
  (lo * Js.len l <= Js.sum l)%Q /\ (Js.sum l <= hi * Js.len l)%Q.
Proof.
  intros H. unfold Js.sum.
  assert (G : forall acc,
    (acc + lo * Js.len l <= fold_left Qplus l acc)%Q /\
    (fold_left Qplus l acc <= acc + hi * Js.len l)%Q).
  { induction l as [|x l IH]; intros acc; cbn [fold_left].
    - change (Js.len (@nil Q)) with 0%Q. split; lra.
    - destruct (H x (or_introl eq_refl)) as (Hlo & Hhi).
      destruct (IH (fun t Ht => H t (or_intror Ht)) (acc + x)%Q) as (I1 & I2).
      rewrite !len_cons. split; lra. }
  destruct (G 0%Q) as (G1 & G2). split; lra.
Qed.



(** ** The load test: pauses *)

Lemma runBatch_session (w : Slots.t) url (options : LoadTestOptions.t) batch
  arrays s :
  exists arrays',
    runBatch w url options batch arrays s
    = (Returned arrays', waitedAfter options batch s).
Proof.
  unfold runBatch, waitedAfter. unfold bind at 1.
  rewrite (all_slots w url (Session.emulation s) batch _ s eq_refl).
  unfold bind.
  destruct ((batch <? LoadTestOptions.iterations options - 1)%nat
            && Js.truthy (LoadTestOptions.delayBetweenBatches options));
    cbn; eexists; reflexivity.
Qed.

Lemma forEachBatch_session (w : Slots.t) url (options : LoadTestOptions.t)
  (batches : list nat) arrays s :
  exists arrays',
    forEachBatch (runBatch w url options) batches arrays s
    = (Returned arrays',
       fold_left (fun s b => waitedAfter options b s) batches s).
Proof.
  revert arrays s. induction batches as [|b batches IH]; intros arrays s.
  - eexists. reflexivity.
  - cbn [forEachBatch fold_left]. unfold bind at 1.
    destruct (runBatch_session w url options b arrays s) as (arrays1 & E).
    rewrite E. apply IH.
Qed.

Lemma waited_fold (options : LoadTestOptions.t) (batches : list nat) s :
  fold_left (fun s b => waitedAfter options b s) batches s
  = Session.mk (Session.networkEnabled s) (Session.emulation s)
      (Session.timeouts s ++
       flat_map
         (fun b =>
            if (b <? LoadTestOptions.iterations options - 1)%nat
               && Js.truthy (LoadTestOptions.delayBetweenBatches options)
            then [default 0%Q (LoadTestOptions.delayBetweenBatches options)]
            else [])
         batches).
Proof.
  revert s. induction batches as [|b batches IH]; intros s.
  - cbn. rewrite app_nil_r. now destruct s.
  - cbn [fold_left flat_map]. rewrite IH. unfold waitedAfter.
    destruct (_ && _); cbn [Session.networkEnabled Session.emulation
      Session.timeouts app]; [now rewrite <- app_assoc | reflexivity].
Qed.

Lemma pauses_seq (k n : nat) (d : Q) :
  flat_map (fun b => if (b <? k)%nat then [d] else []) (seq 0 n)
  = replicate (Nat.min k n) d.
Proof.
  induction n as [|n IH]; [now rewrite Nat.min_0_r|].
  rewrite seq_S, flat_map_app, IH. cbn [flat_map plus].
  destruct (Nat.ltb_spec n k).
  - rewrite (Nat.min_r k n), (Nat.min_r k (S n)) by lia.
    rewrite app_nil_r. symmetry. apply replicate_S_end.
  - rewrite !Nat.min_l by lia. now rewrite !app_nil_r.
Qed.

Lemma flat_map_nil {A B} (f : A -> list B) (l : list A) :
  (forall x, f x = []) -> flat_map f l = [].
Proof.
  intros H. induction l as [|x l IH]; [reflexivity|].
  cbn [flat_map]. now rewrite H, IH.
Qed.

(** X11: the load test changes nothing in the session but the list of
    pauses: with a non-zero [delayBetweenBatches] it pauses
    [iterations - 1] times for that delay (between the batches, not after
    the last one), and without one, or with a delay of 0, never; the
    network emulation is left as it was. *)
Theorem loadTest_pauses_between_batches (w : Slots.t) (url : string)
  (options : LoadTestOptions.t) (s : Session.t) :
  snd (loadTest w url options s)
  = Session.mk (Session.networkEnabled s) (Session.emulation s)
      (Session.timeouts s ++ pauses options).
Proof.
  unfold loadTest, bind.
  destruct (forEachBatch_session w url options
              (seq 0 (LoadTestOptions.iterations options)) ([], []) s)
    as (arrays & E).
  rewrite E. cbn [snd ret]. rewrite waited_fold. clear E. f_equal. f_equal.
  unfold pauses, Js.truthy.
  destruct (LoadTestOptions.delayBetweenBatches options) as [d|].
  - destruct (Qeq_bool d 0); cbn [negb from_option]; unfold id.
    + apply flat_map_nil. intros b. now rewrite andb_false_r.
    + transitivity
        (replicate (Nat.min (LoadTestOptions.iterations options - 1)
                      (LoadTestOptions.iterations options)) d).
      * rewrite <- pauses_seq. apply flat_map_ext. intros b.
        now rewrite andb_true_r.
      * now rewrite Nat.min_l by lia.
  - apply flat_map_nil. intros b. now rewrite andb_false_r.
Qed.

(** ** The load test: runs without failures, and runs without slots *)

Lemma batchErrors_all_succeeded (w : Slots.t) url
  (options : LoadTestOptions.t) e batch :
  (forall i, (i < LoadTestOptions.concurrent options)%nat ->
     exists a, analysisOf (Slots.browser w batch i e) url = Returned a) ->
  batchErrors w url options e batch = [].
Proof.
  intros H. destruct (batchErrors w url options e batch) as [|m l] eqn:E;
    [reflexivity|].
  assert (Hm : m ∈ batchErrors w url options e batch)
    by (rewrite E; apply list_elem_of_here).
  unfold batchErrors in Hm. apply list_elem_of_omap in Hm as (i & Hi & Hs).
  rewrite settleOrder_Permutation in Hi. apply elem_of_seq in Hi.
  destruct (H i) as (a & Ha); [lia|].
  unfold slotValue in Hs. rewrite Ha in Hs. discriminate Hs.
Qed.

Lemma flat_map_nil_on {A B} (f : A -> list B) (P : A -> Prop) (l : list A) :
  (forall x, P x -> f x = []) -> Forall P l -> flat_map f l = [].
Proof.
  intros H. induction 1 as [|x l Hx _ IH]; [reflexivity|].
  cbn [flat_map]. now rewrite (H x Hx), IH.
Qed.

Lemma seq_below (n : nat) : Forall (fun b => (b < n)%nat) (seq 0 n).
Proof. apply Forall_forall. intros b Hb. apply elem_of_seq in Hb. lia. Qed.

Lemma results_elem (w : Slots.t) url (options : LoadTestOptions.t) e
  (batches : list nat) a :
  In a (omap id (flat_map (batchResults w url options e) batches)) ->
  exists b i, In b batches /\ (i < LoadTestOptions.concurrent options)%nat /\
              analysisOf (Slots.browser w b i e) url = Returned a.
Proof.
  intros H. apply list_elem_of_In, list_elem_of_omap in H as (x & Hx & Hid).
  cbn in Hid. subst x. apply list_elem_of_In, in_flat_map in Hx as (b & Hb & Hx).
  unfold batchResults in Hx. apply filter_In in Hx as (Hx & _).
  apply in_map_iff in Hx as (i & Hi & Hin). apply in_seq in Hin.
  exists b, i. split; [exact Hb|]. split; [lia|].
  destruct (slotValue_cases w url e b i) as [(a' & Ha & E)|(m & _ & E)];
    rewrite E in Hi; cbn in Hi; congruence.
Qed.

(** X12: when every slot returns, the summary counts every launched slot:
    [totalRequests] and [successfulRequests] are [concurrent * iterations],
    [failedRequests] is 0 and [errors] is empty, and the success rate is
    100 unless no slot was launched. *)
Theorem loadTest_all_succeeded (w : Slots.t) (url : string)
  (options : LoadTestOptions.t) (s : Session.t) :
  let c := LoadTestOptions.concurrent options in
  let n := LoadTestOptions.iterations options in
  (forall batch i, (batch < n)%nat -> (i < c)%nat ->
     exists a, slotOutcome w url s batch i = Returned a) ->
  exists r s',
    loadTest w url options s = (Returned r, s') /\
    Summary.totalRequests (LoadTestResults.summary r) = (c * n)%nat /\
    Summary.successfulRequests (LoadTestResults.summary r) = (c * n)%nat /\
    Summary.failedRequests (LoadTestResults.summary r) = 0%nat /\
    LoadTestResults.errors r = [] /\
    ((c * n = 0)%nat \/
     exists rate,
       Summary.successRate (LoadTestResults.summary r) = Js.Fin rate /\
       (rate == 100)%Q).
Proof.
  intros c n Hall. set (e := Session.emulation s).
  destruct (loadTest_counts w url options s) as (r & s' & E & Ht & Hsum).
  destruct (loadTest_eq w url options e s eq_refl) as (s2 & E2 & _).
  assert (Herrors : flat_map (batchErrors w url options e) (seq 0 n) = []).
  { apply (flat_map_nil_on _ (fun b => (b < n)%nat)); [|apply seq_below].
    intros b Hb. apply batchErrors_all_succeeded. intros i Hi.
    destruct (Hall b i Hb Hi) as (a & Ha). exists a.
    unfold slotOutcome in Ha. now rewrite analyzePagePerformance_eq in Ha. }
  rewrite E in E2. injection E2 as Er _.
  destruct (analyzeLoadTestResults_counts
    (flat_map (batchResults w url options e) (seq 0 n))
    (flat_map (batchErrors w url options e) (seq 0 n))) as (_ & _ & Hf & He).
  cbv zeta in Hf. fold n in Er. rewrite <- Er in Hf, He.
  rewrite Herrors in Hf, He. cbn [length] in Hf.
  fold c n in Hsum. rewrite Hf in Hsum.
  exists r, s'. split; [exact E|].
  split; [lia|]. split; [lia|]. split; [exact Hf|]. split; [exact He|].
  destruct (loadTest_successRate_is_100 w url options s)
    as (r3 & s3 & E3 & H3).
  rewrite E in E3. injection E3 as <- _.
  destruct H3 as [H3|H3]; [left; lia | right; exact H3].
Qed.

Lemma loadTest_all_succeeded_witness :
  exists r,
    fst (loadTest overloadedHost "https://playwright.dev"
           (LoadTestOptions.mk 1 3 None) freshSession) = Returned r /\
    Summary.totalRequests (LoadTestResults.summary r) = 3%nat /\
    LoadTestResults.errors r = [].
Proof.
  destruct (loadTest_all_succeeded overloadedHost "https://playwright.dev"
              (LoadTestOptions.mk 1 3 None) freshSession)
    as (r & s' & E & Ht & _ & _ & He & _).
  - intros batch i _ Hi. cbn in Hi.
    assert (i = 0)%nat as -> by lia.
    eexists. vm_compute. reflexivity.
  - exists r. rewrite E. repeat split; assumption.
Defined.

(** X13: a load test that launches no slot, because [iterations] or
    [concurrent] is 0, still returns the all-requests-failed summary: all
    fields 0, no error, and the all-requests-failed recommendation. *)
Theorem loadTest_without_slots (w : Slots.t) (url : string)
  (options : LoadTestOptions.t) (s : Session.t) :
  LoadTestOptions.iterations options = 0%nat \/
  LoadTestOptions.concurrent options = 0%nat ->
  fst (loadTest w url options s)
  = Returned
      (LoadTestResults.mk
         (Summary.mk 0 0 0 (Js.Fin 0) (Js.Fin 0) (Js.Fin 0) (Js.Fin 0))
         [] [allFailedAdvice]).
Proof.
  intros H.
  destruct (loadTest_eq w url options (Session.emulation s) s eq_refl)
    as (s' & E & _).
  rewrite E. cbn [fst].
  destruct (loadTest_counts w url options s) as (r & s2 & E2 & Ht & Hsum).
  rewrite E in E2. injection E2 as Er _.
  destruct (analyzeLoadTestResults_counts
    (flat_map (batchResults w url options (Session.emulation s))
       (seq 0 (LoadTestOptions.iterations options)))
    (flat_map (batchErrors w url options (Session.emulation s))
       (seq 0 (LoadTestOptions.iterations options))))
    as (Htot & Hs & Hf & _).
  cbv zeta in Htot, Hs, Hf. rewrite Er in Htot, Hs, Hf.
  assert (Hzero : (LoadTestOptions.concurrent options
                   * LoadTestOptions.iterations options = 0)%nat)
    by (destruct H as [-> | ->]; lia).
  rewrite Hzero in Hsum.
  assert (Hr : flat_map (batchResults w url options (Session.emulation s))
                 (seq 0 (LoadTestOptions.iterations options)) = [])
    by (apply length_zero_iff_nil; lia).
  assert (He : flat_map (batchErrors w url options (Session.emulation s))
                 (seq 0 (LoadTestOptions.iterations options)) = [])
    by (apply length_zero_iff_nil; lia).
  rewrite Hr, He. reflexivity.
Qed.

Lemma loadTest_without_slots_witness :
  fst (loadTest overloadedHost "https://playwright.dev"
         (LoadTestOptions.mk 4 0 (Some 1000%Q)) freshSession)
  = Returned
      (LoadTestResults.mk
         (Summary.mk 0 0 0 (Js.Fin 0) (Js.Fin 0) (Js.Fin 0) (Js.Fin 0))
         [] [allFailedAdvice]).
Proof.
  apply (loadTest_without_slots overloadedHost "https://playwright.dev"
           (LoadTestOptions.mk 4 0 (Some 1000%Q)) freshSession).
  left. reflexivity.
Defined.

Lemma orZero_le (v : option Q) (k : Q) :
  (0 <= k)%Q ->
  match v with Some t => (t <= k)%Q | None => True end ->
  (Js.orZero v <= k)%Q.
Proof.
  intros Hk H. unfold Js.orZero.
  destruct (Js.truthy v); [|exact Hk].
  destruct v as [t|]; cbn [from_option]; [exact H | exact Hk].
Qed.

Lemma generateLoadTestRecommendations_quiet
  (valid : list PerformanceAnalysis.t) :
  (10 <= length valid)%nat ->
  (forall a, In a valid -> (Js.orZero (loadComplete a) <= 5000)%Q) ->
  generateLoadTestRecommendations valid [] = [].
Proof.
  intros Hlen Hall. rewrite generateLoadTestRecommendations_eq.
  destruct (Nat.ltb_spec (length valid) 10); [lia|].
  destruct (Js.ltb (Js.len valid * (1 # 10)) (Js.len (@nil string))) eqn:E.
  { apply error_rate_gate in E. cbn in E. lia. }
  destruct valid as [|a valid]; [cbn in Hlen; lia|].
  unfold Js.div. rewrite len_nonzero by (cbn; lia). cbn [Js.gtn].
  unfold Js.ltb.
  destruct (Qle_bool _ 5000) eqn:F; [reflexivity|]. exfalso.
  assert (G : (Js.sum (responseTimesOf (a :: valid)) / Js.len (a :: valid)
               <= 5000)%Q).
  { set (times := responseTimesOf (a :: valid)).
    assert (Hl : Js.len (a :: valid) = Js.len times)
      by (unfold Js.len, times, responseTimesOf; now rewrite length_map).
    rewrite Hl.
    assert (Hpos : (0 < Js.len times)%Q).
    { pose proof (len_nonneg times).
      assert (~ (Js.len times == 0)%Q).
      { intros Z. apply Qeq_bool_iff in Z.
        rewrite len_nonzero in Z by (unfold times; cbn; lia). discriminate Z. }
      lra. }
    apply Qle_shift_div_r; [exact Hpos|].
    destruct (fold_min_spec (tail times) (hd 0%Q times)) as (_ & L2 & _).
    cbv zeta in L2.
    apply (sum_bounds times (fold_left Qmin (tail times) (hd 0%Q times)) 5000).
    intros t Ht. split.
    - unfold times in *. cbn [responseTimesOf map hd tail] in *.
      destruct Ht as [<-|Ht]; [|now apply L2].
      destruct (fold_min_spec
        (map (fun r => Js.orZero (loadComplete r)) valid)
        (Js.orZero (loadComplete a))) as (L1 & _). exact L1.
    - unfold times, responseTimesOf in Ht.
      apply in_map_iff in Ht as (r & <- & Hr). now apply Hall. }
  apply Qle_bool_iff in G. congruence.
Qed.

(** X14: a load test in which every slot returns with a load-complete time
    that is absent or at most 5000 ms, and which launches at least 10
    slots, ends with no recommendation. *)
Theorem loadTest_healthy_run_has_no_recommendation (w : Slots.t)
  (url : string) (options : LoadTestOptions.t) (s : Session.t) :
  let c := LoadTestOptions.concurrent options in
  let n := LoadTestOptions.iterations options in
  (10 <= c * n)%nat ->
  (forall batch i, (batch < n)%nat -> (i < c)%nat ->
     exists a, slotOutcome w url s batch i = Returned a /\
               match loadComplete a with
               | Some t => (t <= 5000)%Q
               | None => True
               end) ->
  exists r s',
    loadTest w url options s = (Returned r, s') /\
    LoadTestResults.recommendations r = [].
Proof.
  intros c n Hsize Hall. set (e := Session.emulation s).
  destruct (loadTest_eq w url options e s eq_refl) as (s' & E & _).
  eexists _, s'. split; [exact E|]. fold n.
  set (results := flat_map (batchResults w url options e) (seq 0 n)).
  assert (Herrors : flat_map (batchErrors w url options e) (seq 0 n) = []).
  { apply (flat_map_nil_on _ (fun b => (b < n)%nat)); [|apply seq_below].
    intros b Hb. apply batchErrors_all_succeeded. intros i Hi.
    destruct (Hall b i Hb Hi) as (a & Ha & _). exists a.
    unfold slotOutcome in Ha. now rewrite analyzePagePerformance_eq in Ha. }
  rewrite Herrors.
  assert (Hlen : length (omap id results) = (c * n)%nat).
  { rewrite omap_id_length by apply results_notNull.
    pose proof (arrays_counts w url options e (seq 0 n)) as Hc.
    rewrite Herrors, length_seq in Hc. cbn [length] in Hc. fold c results in Hc.
    lia. }
  unfold analyzeLoadTestResults.
  destruct (Nat.eqb_spec (length (omap id results)) 0); [lia|].
  cbn [LoadTestResults.recommendations].
  apply generateLoadTestRecommendations_quiet; [lia|].
  intros a Ha. apply results_elem in Ha as (b & i & Hb & Hi & Ha).
  apply in_seq in Hb.
  destruct (Hall b i) as (a' & Ha' & Hle); [lia | exact Hi |].
  unfold slotOutcome in Ha'. rewrite analyzePagePerformance_eq in Ha'.
  cbn [fst] in Ha'. fold e in Ha'. rewrite Ha in Ha'. injection Ha' as <-.
  apply orZero_le; [lra | exact Hle].
Qed.

Lemma loadTest_healthy_run_has_no_recommendation_witness :
  exists r,
    fst (loadTest overloadedHost "https://playwright.dev"
           (LoadTestOptions.mk 1 10 None) freshSession) = Returned r /\
    LoadTestResults.recommendations r = [].
Proof.
  destruct (loadTest_healthy_run_has_no_recommendation overloadedHost
              "https://playwright.dev" (LoadTestOptions.mk 1 10 None)
              freshSession) as (r & s' & E & Hr).
  - cbn. lia.
  - intros batch i _ Hi. cbn in Hi. assert (i = 0)%nat as -> by lia.
    eexists. split; [vm_compute; reflexivity|]. vm_compute. discriminate.
  - exists r. rewrite E. split; [reflexivity | exact Hr].
Defined.

(** ** The load test: order of the errors *)

Lemma settleOrder_ties (key : nat -> Q) (slots : list nat) :
  (forall i j, (key i == key j)%Q) -> settleOrder key slots = slots.
Proof.
  intros H. induction slots as [|i slots IH]; [reflexivity|].
  cbn [settleOrder fold_right]. fold (settleOrder key slots). rewrite IH.
  destruct slots as [|j slots]; [reflexivity|]. cbn [insertBy].
  assert (E : Qle_bool (key i) (key j) = true).
  { apply Qle_bool_iff. rewrite (H i j). apply Qle_refl. }
  now rewrite E.
Qed.

Lemma slotValue_error (w : Slots.t) url s batch i :
  snd (slotValue w url (Session.emulation s) batch i)
  = match slotOutcome w url s batch i with
    | Thrown message => Some (errorMessage batch i message)
    | _ => None
    end.
Proof.
  unfold slotValue, slotOutcome. rewrite analyzePagePerformance_eq.
  cbn [fst]. now destruct (analysisOf _ _).
Qed.



(** ** testWithThrottling: every outcome *)

(** X16: [testWithThrottling] enables the Network domain and runs the
    analysis under the given conditions. When the analysis returns, the
    result is that analysis with [networkConditions] set, and the session
    is left unconstrained whatever emulation was in force before the call:
    the earlier emulation is not put back. When the analysis throws, the
    same message is thrown and the conditions stay in force. The pauses
    recorded in the session are untouched. *)
Theorem testWithThrottling_outcome (browser : Browser) (url : string)
  (conditions : NetworkConditions.t) (s : Session.t) :
  let during := Session.mk true (throttled conditions) (Session.timeouts s) in
  match fst (analyzePagePerformance browser url during) with
  | Returned a =>
      testWithThrottling browser url conditions s
      = (Returned
           (PerformanceAnalysis.mk
              (PerformanceAnalysis.url a) (PerformanceAnalysis.timestamp a)
              (PerformanceAnalysis.metrics a) (PerformanceAnalysis.scores a)
              (PerformanceAnalysis.recommendations a) (Some conditions)),
         Session.mk true Emulation.unconstrained (Session.timeouts s))
  | Thrown message =>
      testWithThrottling browser url conditions s = (Thrown message, during)
  | Hangs => False
  end.
Proof.
  intros during. rewrite analyzePagePerformance_eq. cbn [fst].
  unfold during at 1. cbn [Session.emulation].
  pose proof (analysisOf_settles (browser (throttled conditions)) url) as Hs.
  unfold testWithThrottling, bind, newCDPSession, ret. cbn [send].
  rewrite analyzePagePerformance_eq. cbn [Session.emulation].
  fold (throttled conditions).
  destruct (analysisOf (browser (throttled conditions)) url);
    [reflexivity | reflexivity | contradiction].
Qed.

(** ** Touch targets *)

Lemma smallTargetsFrom_length toString index elements :
  length (smallTargetsFrom toString index elements)
  = length (List.filter tooSmall elements).
Proof.
  revert index. induction elements as [|rect rest IH]; intros index;
    [reflexivity|].
  cbn [smallTargetsFrom List.filter]. fold (tooSmall rect).
  rewrite length_app, IH. now destruct (tooSmall rect).
Qed.

Lemma len_zero {A} (l : list A) : (Js.len l == 0)%Q -> length l = 0%nat.
Proof. unfold Js.len, Qeq. cbn. lia. Qed.

Lemma len_le {A B} (l : list A) (k : list B) :
  (length l <= length k)%nat -> (Js.len l <= Js.len k)%Q.
Proof. intros H. unfold Js.len, Qle. cbn. lia. Qed.

(** X17: the touch-target analysis counts every matched element and, as
    small, exactly the elements narrower or lower than 44, one detail per
    small element. On a page without matched elements the compliance is
    NaN (0/0); otherwise it is a percentage between 0 and 100 that is 100
    exactly when no element is small. *)
Theorem touchTargets_compliance (toString : Q -> string)
  (elements : list Rect.t) :
  let r := touchTargets toString elements in
  TouchTargetAnalysis.totalTargets r = length elements /\
  TouchTargetAnalysis.smallTargets r = length (List.filter tooSmall elements) /\
  length (TouchTargetAnalysis.smallTargetDetails r)
  = TouchTargetAnalysis.smallTargets r /\
  (TouchTargetAnalysis.smallTargets r <= TouchTargetAnalysis.totalTargets r)%nat /\
  match elements with
  | [] => TouchTargetAnalysis.compliance r = Js.NaN
  | _ :: _ =>
      exists q,
        TouchTargetAnalysis.compliance r = Js.Fin q /\
        (0 <= q)%Q /\ (q <= 100)%Q /\
        ((q == 100)%Q <-> TouchTargetAnalysis.smallTargets r = 0%nat)
  end.
Proof.
  cbv zeta. unfold touchTargets.
  cbn [TouchTargetAnalysis.totalTargets TouchTargetAnalysis.smallTargets
       TouchTargetAnalysis.smallTargetDetails TouchTargetAnalysis.compliance].
  assert (Hsmall : (length (smallTargetsFrom toString 0 elements)
                    <= length elements)%nat).
  { rewrite smallTargetsFrom_length. apply filter_length_le. }
  split; [reflexivity|]. split; [apply smallTargetsFrom_length|].
  split; [reflexivity|]. split; [exact Hsmall|].
  destruct elements as [|rect rest] eqn:E; [reflexivity|]. rewrite <- E in *.
  assert (Hne : length elements <> 0%nat) by (rewrite E; cbn; lia).
  set (small := smallTargetsFrom toString 0 elements) in *.
  unfold Js.div. rewrite (len_nonzero elements Hne). cbn [Js.times].
  assert (Hnz : ~ (Js.len elements == 0)%Q).
  { intros Z. apply len_zero in Z. contradiction. }
  assert (Hpos : (0 < Js.len elements)%Q).
  { pose proof (len_nonneg elements). lra. }
  pose proof (len_le small elements Hsmall) as Hle.
  pose proof (len_nonneg small) as Hs0.
  set (q := ((Js.len elements - Js.len small) / Js.len elements)%Q).
  assert (Hq0 : (0 <= q)%Q) by (apply Qle_shift_div_l; [exact Hpos | lra]).
  assert (Hq1 : (q <= 1)%Q) by (apply Qle_shift_div_r; [exact Hpos | lra]).
  assert (Hmul : (Js.len elements * q == Js.len elements - Js.len small)%Q)
    by (apply Qmult_div_r; exact Hnz).
  exists (q * 100)%Q. split; [reflexivity|]. split; [lra|]. split; [lra|].
  split.
  - intros H100. assert (Hq : (q == 1)%Q) by lra.
    rewrite Hq in Hmul. apply len_zero. lra.
  - intros Hz.
    assert (Hz' : (Js.len small == 0)%Q)
      by (unfold Js.len; rewrite Hz; reflexivity).
    rewrite Hz' in Hmul.
    assert (Hq : (q == 1)%Q).
    { apply (Qmult_inj_l q 1 (Js.len elements) Hnz). lra. }
    lra.
Qed.

(** ** Scroll test *)

Lemma scroll_from (frames : nat) (maxScroll scrollTop : Z) :
  let k := stepsNeeded (maxScroll - scrollTop) in
  let positions n := map (fun j => (scrollTop + 100 * Z.of_nat j)%Z) (seq 1 n) in
  ((k <= S frames)%nat ->
   scroll frames maxScroll scrollTop = (positions k, true)) /\
  ((S frames < k)%nat ->
   scroll frames maxScroll scrollTop = (positions (S frames), false)).
Proof.
  revert scrollTop. induction frames as [|frames IH]; intros scrollTop;
    cbv zeta; cbn [scroll];
    destruct (Z.leb_spec maxScroll (scrollTop + 100)) as [Hle|Hgt].
  - assert (Hk : stepsNeeded (maxScroll - scrollTop) = 1%nat).
    { unfold stepsNeeded.
      assert ((maxScroll - scrollTop + 99) / 100 < 2)%Z
        by (apply Z.div_lt_upper_bound; lia).
      lia. }
    rewrite Hk. split; [intros _|lia]. cbn; repeat f_equal; lia.
  - assert (Hk : (2 <= stepsNeeded (maxScroll - scrollTop))%nat).
    { unfold stepsNeeded.
      assert (2 <= (maxScroll - scrollTop + 99) / 100)%Z
        by (apply Z.div_le_lower_bound; lia).
      lia. }
    split; [lia|intros _]. cbn; repeat f_equal; lia.
  - assert (Hk : stepsNeeded (maxScroll - scrollTop) = 1%nat).
    { unfold stepsNeeded.
      assert ((maxScroll - scrollTop + 99) / 100 < 2)%Z
        by (apply Z.div_lt_upper_bound; lia).
      lia. }
    rewrite Hk. split; [intros _|lia]. cbn; repeat f_equal; lia.
  - assert (Hk : stepsNeeded (maxScroll - scrollTop)
                 = S (stepsNeeded (maxScroll - (scrollTop + 100)))).
    { unfold stepsNeeded.
      assert (Hd : ((maxScroll - (scrollTop + 100) + 99) / 100
                    = (maxScroll - scrollTop + 99) / 100 - 1)%Z).
      { replace (maxScroll - (scrollTop + 100) + 99)%Z
          with (maxScroll - scrollTop + 99 + (-1) * 100)%Z by lia.
        rewrite Z.div_add by lia. lia. }
      assert (2 <= (maxScroll - scrollTop + 99) / 100)%Z
        by (apply Z.div_le_lower_bound; lia).
      rewrite Hd. lia. }
    rewrite Hk.
    destruct (IH (scrollTop + 100)%Z) as [Hdone Hshort]. cbv zeta in *.
    assert (Hshift : forall n,
      (scrollTop + 100
       :: map (fun j => (scrollTop + 100 + 100 * Z.of_nat j)%Z) (seq 1 n))%Z
      = map (fun j => (scrollTop + 100 * Z.of_nat j)%Z) (seq 1 (S n))).
    { intros n. cbn [seq map]. f_equal; try lia.
      rewrite <- (seq_shift n 1), map_map. apply map_ext. intros j. lia. }
    split; intros H.
    + rewrite Hdone by lia. cbn [fst snd]. now rewrite Hshift.
    + rewrite Hshort by lia. cbn [fst snd]. now rewrite Hshift.
Qed.

(** X18: the scroll test scrolls to 100, 200, ... in steps of 100 and stops
    at the first position that reaches [scrollHeight - innerHeight]; it
    scrolls at least once, also on a page that does not overflow. It
    returns, with the difference of the two clock readings as duration,
    smooth [true] and jank score 0, exactly when the browser delivers the
    animation frames for all steps after the first; otherwise its promise
    never settles. The session is left as it was. *)
Theorem testScrollPerformance_steps (run : ScrollRun.t) (s : Session.t) :
  let maxScroll := (ScrollRun.scrollHeight run - ScrollRun.innerHeight run)%Z in
  let k := stepsNeeded maxScroll in
  (1 <= k)%nat /\
  (maxScroll <= 100 * Z.of_nat k)%Z /\
  ((1 < k)%nat -> (100 * Z.of_nat (k - 1) < maxScroll)%Z) /\
  scroll (ScrollRun.frames run) maxScroll 0
  = (scrollPositions (Nat.min k (S (ScrollRun.frames run))),
     (k <=? S (ScrollRun.frames run))%nat) /\
  testScrollPerformance run s
  = (if (k <=? S (ScrollRun.frames run))%nat
     then Returned
            (ScrollPerformanceMetrics.mk
               (ScrollRun.endTime run - ScrollRun.startTime run) true 0)
     else Hangs, s).
Proof.
  intros maxScroll k.
  assert (Hk1 : (1 <= k)%nat) by (unfold k, stepsNeeded; lia).
  assert (Hup : (maxScroll <= 100 * Z.of_nat k)%Z).
  { unfold k, stepsNeeded.
    pose proof (Z.mod_pos_bound (maxScroll + 99) 100 ltac:(lia)).
    pose proof (Z.div_mod (maxScroll + 99) 100 ltac:(lia)). lia. }
  assert (Hlow : (1 < k)%nat -> (100 * Z.of_nat (k - 1) < maxScroll)%Z).
  { unfold k, stepsNeeded. intros H.
    pose proof (Z.mod_pos_bound (maxScroll + 99) 100 ltac:(lia)).
    pose proof (Z.div_mod (maxScroll + 99) 100 ltac:(lia)). lia. }
  assert (Hscroll : scroll (ScrollRun.frames run) maxScroll 0
    = (scrollPositions (Nat.min k (S (ScrollRun.frames run))),
       (k <=? S (ScrollRun.frames run))%nat)).
  { destruct (scroll_from (ScrollRun.frames run) maxScroll 0) as [Hdone Hshort].
    cbv zeta in Hdone, Hshort. rewrite Z.sub_0_r in Hdone, Hshort. fold k in Hdone, Hshort.
    unfold scrollPositions.
    destruct (Nat.leb_spec k (S (ScrollRun.frames run))) as [H|H].
    - rewrite Hdone by exact H. now rewrite Nat.min_l by lia.
    - rewrite Hshort by exact H. now rewrite Nat.min_r by lia. }
  repeat split; try assumption.
  unfold testScrollPerformance. fold maxScroll. rewrite Hscroll. cbn [snd].
  now destruct (k <=? S (ScrollRun.frames run))%nat.
Qed.

Lemma testScrollPerformance_steps_witness :
  (100 * Z.of_nat (stepsNeeded (1000 - 667) - 1) < 1000 - 667)%Z /\
  testScrollPerformance (ScrollRun.mk 1000 667 3 5000 5120) freshSession
  = (Returned (ScrollPerformanceMetrics.mk 120 true 0), freshSession).
Proof.
  destruct (testScrollPerformance_steps (ScrollRun.mk 1000 667 3 5000 5120)
              freshSession) as (_ & _ & Hlow & _ & Hrun).
  split.
  - apply Hlow. vm_compute. lia.
  - rewrite Hrun. reflexivity.
Defined.

(** ** testMobilePerformance *)


(** ** Further facts on the summary and the scores *)

(** X20: every launched slot is accounted for exactly once: the successful
    requests and the recorded errors together are
    [concurrent * iterations], [failedRequests] is the number of recorded
    errors, and [totalRequests] equals [successfulRequests]. *)
Theorem loadTest_accounts_for_every_slot (w : Slots.t) (url : string)
  (options : LoadTestOptions.t) (s : Session.t) :
  exists r s',
    loadTest w url options s = (Returned r, s') /\
    (Summary.successfulRequests (LoadTestResults.summary r)
     + length (LoadTestResults.errors r)
     = LoadTestOptions.concurrent options
       * LoadTestOptions.iterations options)%nat /\
    Summary.failedRequests (LoadTestResults.summary r)
    = length (LoadTestResults.errors r) /\
    Summary.totalRequests (LoadTestResults.summary r)
    = Summary.successfulRequests (LoadTestResults.summary r).
Proof.
  destruct (loadTest_counts w url options s) as (r & s' & E & Ht & Hsum).
  destruct (loadTest_eq w url options (Session.emulation s) s eq_refl)
    as (s2 & E2 & _).
  rewrite E in E2. injection E2 as Er _.
  destruct (analyzeLoadTestResults_counts
    (flat_map (batchResults w url options (Session.emulation s))
       (seq 0 (LoadTestOptions.iterations options)))
    (flat_map (batchErrors w url options (Session.emulation s))
       (seq 0 (LoadTestOptions.iterations options))))
    as (_ & _ & Hf & He).
  cbv zeta in Hf. rewrite <- Er in Hf, He. rewrite <- He in Hf.
  exists r, s'. split; [exact E|]. split; [lia|]. split; [exact Hf | exact Ht].
Qed.

(** X21: on an array that still holds its [null] entries,
    [analyzeLoadTestResults] computes the success rate over all entries:
    with at least one non-null entry, [totalRequests] is the length of the
    array and the success rate is 100 times the number of non-null
    entries divided by that length. *)
Theorem analyzeLoadTestResults_rate_over_all_entries
  (results : list (option PerformanceAnalysis.t)) (errors : list string) :
  omap id results <> [] ->
  let summary :=
    LoadTestResults.summary (analyzeLoadTestResults results errors) in
  Summary.totalRequests summary = length results /\
  Summary.successfulRequests summary = length (omap id results) /\
  exists rate,
    Summary.successRate summary = Js.Fin rate /\
    (rate == 100 * Js.len (omap id results) / Js.len results)%Q.
Proof.
  intros Hne. cbv zeta.
  destruct (analyzeLoadTestResults_counts results errors) as (Ht & Hs & _).
  split; [exact Ht|]. split; [exact Hs|].
  unfold analyzeLoadTestResults.
  pose proof (omap_id_length_le results) as Hle.
  destruct (omap id results) as [|r valid]; [contradiction|].
  cbn [length] in Hle.
  cbn [length Nat.eqb LoadTestResults.summary Summary.successRate].
  unfold Js.div. rewrite (len_nonzero results) by lia. cbn [Js.times].
  eexists. split; [reflexivity|].
  assert (Hnz : ~ (Js.len results == 0)%Q).
  { intros Z. apply len_zero in Z. lia. }
  field. exact Hnz.
Qed.

Lemma analyzeLoadTestResults_rate_over_all_entries_witness :
  exists rate,
    Summary.successRate
      (LoadTestResults.summary
         (analyzeLoadTestResults [Some fallbackAnalysis; None]
            ["Batch 0, User 1: net::ERR_CONNECTION_REFUSED"]))
    = Js.Fin rate /\
    (rate == 50)%Q.
Proof.
  destruct (analyzeLoadTestResults_rate_over_all_entries
              [Some fallbackAnalysis; None]
              ["Batch 0, User 1: net::ERR_CONNECTION_REFUSED"])
    as (_ & _ & rate & Hr & Hq).
  - discriminate.
  - exists rate. split; [exact Hr|]. rewrite Hq. reflexivity.
Defined.

(** X22: the LCP and load-time scores never increase with a larger value,
    as long as the smaller value is not 0, and the resource-efficiency
    score never increases with a larger resource count, for every
    count. *)
Theorem other_scores_monotone (m : PerformanceMetrics.t) (a b : Q)
  (n1 n2 : nat) :
  (a <= b)%Q -> ~ (a == 0)%Q -> (n1 <= n2)%nat ->
  (PerformanceScores.largestContentfulPaint
     (calculatePerformanceScores (withLCP m (Some b)))
   <= PerformanceScores.largestContentfulPaint
        (calculatePerformanceScores (withLCP m (Some a))))%Q /\
  (PerformanceScores.loadTime
     (calculatePerformanceScores (withLoadComplete m (Some b)))
   <= PerformanceScores.loadTime
        (calculatePerformanceScores (withLoadComplete m (Some a))))%Q /\
  (PerformanceScores.resourceEfficiency
     (calculatePerformanceScores (withTotalResources m n2))
   <= PerformanceScores.resourceEfficiency
        (calculatePerformanceScores (withTotalResources m n1)))%Q.
Proof.
  intros Hab Ha Hn. rewrite !calculatePerformanceScores_eq.
  cbn [withOverall withLCP withLoadComplete withTotalResources withVitals
       PerformanceMetrics.webVitals PerformanceMetrics.resources
       WebVitals.largestContentfulPaint WebVitals.loadComplete
       ResourceMetrics.totalResources
       PerformanceScores.largestContentfulPaint PerformanceScores.loadTime
       PerformanceScores.resourceEfficiency].
  unfold lcpScore, loadScore, resourceScore.
  rewrite (truthy_nonzero a Ha). unfold Js.le.
  split; [|split].
  - destruct (Js.truthy (Some b));
      destruct (Qle_bool a 2500) eqn:A1, (Qle_bool a 4000) eqn:A2,
        (Qle_bool b 2500) eqn:B1, (Qle_bool b 4000) eqn:B2;
      qfacts; try lra.
  - destruct (Js.truthy (Some b));
      destruct (Qle_bool a 2000) eqn:A1, (Qle_bool a 4000) eqn:A2,
        (Qle_bool a 6000) eqn:A3, (Qle_bool b 2000) eqn:B1,
        (Qle_bool b 4000) eqn:B2, (Qle_bool b 6000) eqn:B3;
      qfacts; try lra.
  - destruct (Nat.leb_spec n1 50), (Nat.leb_spec n1 100),
      (Nat.leb_spec n1 150), (Nat.leb_spec n2 50), (Nat.leb_spec n2 100),
      (Nat.leb_spec n2 150); try lia; try lra.
Qed.

Lemma other_scores_monotone_witness :
  (PerformanceScores.loadTime
     (calculatePerformanceScores (withLoadComplete fallbackMetrics (Some 7000%Q)))
   <= PerformanceScores.loadTime
        (calculatePerformanceScores
           (withLoadComplete fallbackMetrics (Some 1500%Q))))%Q.
Proof.
  apply (other_scores_monotone fallbackMetrics 1500 7000 10 120).
  - vm_compute; discriminate.
  - vm_compute; discriminate.
  - lia.
Defined.
